(** * QuantMatrix: the product-quantized matrix of fastText

    A shallow embedding of [src/quantmatrix.cc] and the properties of its
    constructor, its two query operations, its refusal of mutation and its
    binary serialization.

    Conventions of the embedding.
    - A C++ call either returns, trips an [assert] (the build keeps
      assertions, so the process aborts), throws a C++ exception, or has
      undefined behaviour (null [unique_ptr], index past the end of a
      [std::vector], signed overflow, division by zero).  The four outcomes
      are the constructors of [result].
    - [int64_t] values are mathematical integers whose arithmetic is checked
      against the 64-bit range.
    - [uint8_t] buffers are lists of [Byte.byte]; streams are byte lists.
    - [real] is the C++ [float]: IEEE-754 binary32, through the Standard
      Library's executable [spec_float].
    - The product quantizer and the dense containers are collaborators whose
      sources are outside [quantmatrix.cc]; they enter as an interface
      ([ProductQuantizer], [DenseOps]). *)

From Stdlib Require Import String.
From Stdlib Require Import ZArith List Bool Lia QArith Qround.
From Stdlib Require Import Floats.SpecFloat.
From Stdlib Require Import Strings.Byte.
Import ListNotations.

Local Open Scope Z_scope.

(* ================================================================== *)
(** ** Outcomes of a C++ call *)

Inductive exception : Type :=
| runtime_error (what : string)      (* std::runtime_error *)
| invalid_argument (what : string)   (* std::invalid_argument *)
| length_error (what : string)       (* std::length_error *)
| other_exception (what : string).

Inductive result (A : Type) : Type :=
| Returns (a : A)
| AssertionFailed
| Throws (e : exception)
| Undefined.

Arguments Returns {A} a.
Arguments AssertionFailed {A}.
Arguments Throws {A} e.
Arguments Undefined {A}.

Definition bind {A B : Type} (r : result A) (k : A -> result B) : result B :=
  match r with
  | Returns a => k a
  | AssertionFailed => AssertionFailed
  | Throws e => Throws e
  | Undefined => Undefined
  end.

Declare Scope cxx_scope.
Delimit Scope cxx_scope with cxx.
Notation "x <- c1 ;; c2" := (bind c1 (fun x => c2))
  (at level 61, c1 at next level, right associativity) : cxx_scope.
Notation "' pat <- c1 ;; c2" := (bind c1 (fun x => match x with pat => c2 end))
  (at level 61, pat pattern, c1 at next level, right associativity) : cxx_scope.
Notation "c1 ;;; c2" := (bind c1 (fun _ => c2))
  (at level 61, right associativity) : cxx_scope.
Local Open Scope cxx_scope.

(** [assert(c)] of <assert.h>. *)
Definition assert (c : bool) : result unit :=
  if c then Returns tt else AssertionFailed.

(** Dereferencing a [std::unique_ptr]. *)
Definition deref {A : Type} (p : option A) : result A :=
  match p with
  | Some a => Returns a
  | None => Undefined
  end.

(* ================================================================== *)
(** ** Machine integers *)

Definition int64_min : Z := - 2 ^ 63.
Definition int64_max : Z := 2 ^ 63 - 1.

Definition in_int64 (z : Z) : bool := (int64_min <=? z) && (z <=? int64_max).

Definition checked64 (z : Z) : result Z :=
  if in_int64 z then Returns z else Undefined.

Definition add64 (a b : Z) : result Z := checked64 (a + b).
Definition sub64 (a b : Z) : result Z := checked64 (a - b).
Definition mul64 (a b : Z) : result Z := checked64 (a * b).
(** C++ [/] truncates toward zero. *)
Definition div64 (a b : Z) : result Z :=
  if b =? 0 then Undefined else checked64 (Z.quot a b).

(* ================================================================== *)
(** ** Bytes, buffers and streams *)

Definition Z_of_byte (b : byte) : Z := Z.of_N (Byte.to_N b).

Definition byte_of_Z (z : Z) : byte :=
  match Byte.of_N (Z.to_N (z mod 256)) with
  | Some b => b
  | None => x00
  end.

(** The object representation of an integer, least significant byte first. *)
Fixpoint le_bytes (k : nat) (z : Z) : list byte :=
  match k with
  | O => []
  | S k' => byte_of_Z z :: le_bytes k' (z / 256)
  end.

Fixpoint le_value (bs : list byte) : Z :=
  match bs with
  | [] => 0
  | b :: rest => Z_of_byte b + 256 * le_value rest
  end.

Definition bytes_of_int64 (z : Z) : list byte := le_bytes 8 z.

Definition int64_of_bytes (bs : list byte) : Z :=
  let u := le_value bs in
  if u <? 2 ^ 63 then u else u - 2 ^ 64.

Definition bytes_of_bool (b : bool) : list byte := [if b then x01 else x00].

(** A [bool] object whose byte is neither 0 nor 1 has no defined value. *)
Definition bool_of_bytes (bs : list byte) : result bool :=
  match bs with
  | [x00] => Returns false
  | [x01] => Returns true
  | _ => Undefined
  end.

Definition size {A : Type} (v : list A) : Z := Z.of_nat (length v).

(** [v[i]] on a [std::vector] or through a pointer into an array. *)
Definition at_index {A : Type} (v : list A) (i : Z) : result A :=
  if (0 <=? i) && (i <? size v) then
    match nth_error v (Z.to_nat i) with
    | Some a => Returns a
    | None => Undefined
    end
  else Undefined.

(** [std::vector<T>(n)] and [resize(n)] on an empty vector: [n] copies of
    the value-initialised element; a negative [n] converts to a [size_t]
    above [max_size()]. *)
Definition vector_of_size {A : Type} (dflt : A) (n : Z) : result (list A) :=
  if n <? 0 then Throws (length_error "vector")
  else Returns (repeat dflt (Z.to_nat n)).

(** Output stream: the bytes written so far. *)
Definition ostream : Type := list byte.

Definition ostream_write (out : ostream) (bs : list byte) : ostream := out ++ bs.

(** [out.write(buf.data(), n)]: the first [n] bytes of the buffer. *)
Definition buffer_prefix (buf : list byte) (n : Z) : result (list byte) :=
  if (0 <=? n) && (n <=? size buf) then Returns (firstn (Z.to_nat n) buf)
  else Undefined.

(** Input stream: the bytes still to be read and the fail bit. *)
Record istream : Type := mk_istream {
  is_bytes : list byte;
  is_fail : bool
}.

Definition istream_of (bs : list byte) : istream := mk_istream bs false.

(** [in.read(p, n)]: on a failed stream nothing is extracted; a short
    stream delivers what it has and sets the fail bit. *)
Definition istream_read (n : nat) (s : istream) : list byte * istream :=
  if is_fail s then ([], s)
  else if (n <=? length (is_bytes s))%nat
       then (firstn n (is_bytes s), mk_istream (skipn n (is_bytes s)) false)
       else (is_bytes s, mk_istream [] true).

(** The bytes of an object after [got] was stored at its start. *)
Definition overwrite (old got : list byte) : list byte :=
  got ++ skipn (length got) old.

(** A callee storing [written] through a pointer to the start of [buf]:
    the buffer keeps its size; storing past its end is undefined. *)
Definition write_through (buf written : list byte) : result (list byte) :=
  if (length written <=? length buf)%nat then Returns (overwrite buf written)
  else Undefined.

(** [in.read((char* )&x, sizeof(x))] for an object whose bytes are [old]. *)
Definition read_object (old : list byte) (s : istream) : list byte * istream :=
  let '(got, s') := istream_read (length old) s in
  (overwrite old got, s').

(** A stream from which nothing more can be read: failed, or at its end. *)
Definition exhausted (s : istream) : Prop :=
  is_fail s = true \/ is_bytes s = [].

(* ================================================================== *)
(** ** Reals *)

(** Modelled from the spec: real.h is not part of the sources; the spec's
    reals are taken as the C++ [float], IEEE-754 binary32: 24 bits of
    precision, infinities at exponent 128. *)
Definition real : Type := spec_float.
Definition prec32 : Z := 24.
Definition emax32 : Z := 128.

Definition rmul : real -> real -> real := SFmul prec32 emax32.
Definition radd : real -> real -> real := SFadd prec32 emax32.
Definition rsub : real -> real -> real := SFsub prec32 emax32.
Definition rdiv : real -> real -> real := SFdiv prec32 emax32.
Definition rsqrt : real -> real := SFsqrt prec32 emax32.
Definition rltb : real -> real -> bool := SFltb.
Definition reqb : real -> real -> bool := SFeqb.
Definition rzero : real := S754_zero false.
Definition rone : real := S754_finite false 8388608 (-23).
Definition real_of_Z (z : Z) : real := binary_normalize prec32 emax32 z 0 false.

(** The values a [float] object can hold. *)
Definition real_valid (x : real) : bool := valid_binary prec32 emax32 x.

Definition Vector : Type := list real.

(** [ceil(n / d)] over the rationals. *)
Definition ceil_div (n d : Z) : Z := Qceiling (inject_Z n / inject_Z d).

(* ================================================================== *)
(** ** Collaborators *)

(** [fasttext::DenseMatrix]: [size(0)] rows, [size(1)] columns, row-major
    [data()]. *)
Record DenseMatrix : Type := mk_DenseMatrix {
  dm_rows : Z;
  dm_cols : Z;
  dm_data : list real
}.

(** Modelled from the spec: densematrix.cc is not part of the sources; the
    two row operations the constructor calls are the "per-row Euclidean norm
    computation" ([l2NormRow], which fills the vector it is given) and the
    "row-wise scalar division" ([divideRow], which rewrites the matrix). *)
Class DenseOps : Type := {
  l2NormRow : DenseMatrix -> Vector -> result Vector;
  divideRow : DenseMatrix -> Vector -> result DenseMatrix
}.

(** Modelled from the spec: productquantizer.cc is not part of the sources;
    the operations are those of the spec's VectorQuantizer contract, under
    the names [quantmatrix.cc] calls them by.  [pq_compute_codes p data n]
    gives the codes the quantizer stores through its output pointer;
    [pq_get_centroids p m c] is the centroid array from the address of
    centroid [c] of slot [m] on; [pq_save] gives the bytes the quantizer
    appends to the stream. *)
Class ProductQuantizer (PQ : Type) : Type := {
  pq_default : PQ;
  pq_new : Z -> Z -> result PQ;
  pq_train : PQ -> Z -> list real -> result PQ;
  pq_compute_codes : PQ -> list real -> Z -> result (list byte);
  pq_get_centroids : PQ -> Z -> byte -> list real;
  pq_mulcode : PQ -> Vector -> list byte -> Z -> real -> result real;
  pq_addcode : PQ -> Vector -> list byte -> Z -> real -> result Vector;
  pq_save : PQ -> list byte;
  pq_load : PQ -> istream -> result (PQ * istream)
}.

(* ================================================================== *)
(** ** QuantMatrix *)

Section QuantMatrix.

Context {PQ : Type} {PQops : ProductQuantizer PQ} {Dops : DenseOps}.

(** Modelled from the spec: quantmatrix.h and matrix.h are not part of the
    sources; the members are those [quantmatrix.cc] uses, with the widths of
    the spec's binary layout (a one-byte flag and three 64-bit integers). *)
Record QuantMatrix : Type := mk_QuantMatrix {
  m_ : Z;
  n_ : Z;
  pq_ : option PQ;
  npq_ : option PQ;
  codes_ : list byte;
  norm_codes_ : list byte;
  qnorm_ : bool;
  codesize_ : Z
}.

(** [QuantMatrix::QuantMatrix()] *)
Definition QuantMatrix_default : QuantMatrix :=
  {| m_ := 0; n_ := 0; pq_ := None; npq_ := None;
     codes_ := []; norm_codes_ := []; qnorm_ := false; codesize_ := 0 |}.

(** [QuantMatrix::quantizeNorm] *)
Definition quantizeNorm (q : QuantMatrix) (norms : Vector) : result QuantMatrix :=
  assert (qnorm_ q) ;;;
  assert (size norms =? m_ q) ;;;
  npq <- deref (npq_ q) ;;
  npq' <- pq_train npq (m_ q) norms ;;
  written <- pq_compute_codes npq' norms (m_ q) ;;
  nc <- write_through (norm_codes_ q) written ;;
  Returns {| m_ := m_ q; n_ := n_ q; pq_ := pq_ q; npq_ := Some npq';
             codes_ := codes_ q; norm_codes_ := nc;
             qnorm_ := qnorm_ q; codesize_ := codesize_ q |}.

(** [QuantMatrix::quantize] *)
Definition quantize (q : QuantMatrix) (mat : DenseMatrix) : result QuantMatrix :=
  '(q, mat) <- (if qnorm_ q then
                  norms <- vector_of_size rzero (dm_rows mat) ;;
                  norms <- l2NormRow mat norms ;;
                  mat <- divideRow mat norms ;;
                  q <- quantizeNorm q norms ;;
                  Returns (q, mat)
                else Returns (q, mat)) ;;
  pq <- deref (pq_ q) ;;
  pq' <- pq_train pq (m_ q) (dm_data mat) ;;
  written <- pq_compute_codes pq' (dm_data mat) (m_ q) ;;
  cs <- write_through (codes_ q) written ;;
  Returns {| m_ := m_ q; n_ := n_ q; pq_ := Some pq'; npq_ := npq_ q;
             codes_ := cs; norm_codes_ := norm_codes_ q;
             qnorm_ := qnorm_ q; codesize_ := codesize_ q |}.

(** [QuantMatrix::QuantMatrix(DenseMatrix&&, int32_t, bool)] *)
Definition QuantMatrix_new (mat : DenseMatrix) (dsub : Z) (qnorm : bool)
  : result QuantMatrix :=
  let m := dm_rows mat in
  let n := dm_cols mat in
  t <- add64 n dsub ;;
  t <- sub64 t 1 ;;
  t <- div64 t dsub ;;
  codesize <- mul64 m t ;;
  codes <- vector_of_size x00 codesize ;;
  pq <- pq_new n dsub ;;
  '(norm_codes, npq) <- (if qnorm then
                           nc <- vector_of_size x00 m ;;
                           np <- pq_new 1 1 ;;
                           Returns (nc, Some np)
                         else Returns ([], None)) ;;
  quantize {| m_ := m; n_ := n; pq_ := Some pq; npq_ := npq;
              codes_ := codes; norm_codes_ := norm_codes;
              qnorm_ := qnorm; codesize_ := codesize |} mat.

(** [QuantMatrix::dotRow] *)
Definition dotRow (q : QuantMatrix) (vec : Vector) (i : Z) : result real :=
  assert (0 <=? i) ;;;
  assert (i <? m_ q) ;;;
  assert (size vec =? n_ q) ;;;
  norm <- (if qnorm_ q then
             npq <- deref (npq_ q) ;;
             c <- at_index (norm_codes_ q) i ;;
             at_index (pq_get_centroids npq 0 c) 0
           else Returns rone) ;;
  pq <- deref (pq_ q) ;;
  pq_mulcode pq vec (codes_ q) i norm.

Definition not_permitted : exception :=
  runtime_error "Operation not permitted on quantized matrices.".

(** [QuantMatrix::addVectorToRow]: the outcome and the instance afterwards. *)
Definition addVectorToRow (q : QuantMatrix) (vec : Vector) (i : Z) (a : real)
  : result unit * QuantMatrix :=
  (Throws not_permitted, q).

(** [QuantMatrix::addRowToVector(Vector&, int32_t, real)]: the accumulator
    afterwards. *)
Definition addRowToVector_scaled (q : QuantMatrix) (x : Vector) (i : Z) (a : real)
  : result Vector :=
  norm <- (if qnorm_ q then
             npq <- deref (npq_ q) ;;
             c <- at_index (norm_codes_ q) i ;;
             at_index (pq_get_centroids npq 0 c) 0
           else Returns rone) ;;
  pq <- deref (pq_ q) ;;
  pq_addcode pq x (codes_ q) i (rmul a norm).

(** [QuantMatrix::addRowToVector(Vector&, int32_t)] *)
Definition addRowToVector (q : QuantMatrix) (x : Vector) (i : Z) : result Vector :=
  norm <- (if qnorm_ q then
             npq <- deref (npq_ q) ;;
             c <- at_index (norm_codes_ q) i ;;
             at_index (pq_get_centroids npq 0 c) 0
           else Returns rone) ;;
  pq <- deref (pq_ q) ;;
  pq_addcode pq x (codes_ q) i norm.

(** [QuantMatrix::save]: the stream afterwards. *)
Definition save (q : QuantMatrix) (out : ostream) : result ostream :=
  let out := ostream_write out (bytes_of_bool (qnorm_ q)) in
  let out := ostream_write out (bytes_of_int64 (m_ q)) in
  let out := ostream_write out (bytes_of_int64 (n_ q)) in
  let out := ostream_write out (bytes_of_int64 (codesize_ q)) in
  cb <- buffer_prefix (codes_ q) (codesize_ q) ;;
  let out := ostream_write out cb in
  pq <- deref (pq_ q) ;;
  let out := ostream_write out (pq_save pq) in
  if qnorm_ q then
    nb <- buffer_prefix (norm_codes_ q) (m_ q) ;;
    let out := ostream_write out nb in
    npq <- deref (npq_ q) ;;
    Returns (ostream_write out (pq_save npq))
  else Returns out.

(** [QuantMatrix::load]: the instance and the stream afterwards. *)
Definition load (q : QuantMatrix) (s : istream) : result (QuantMatrix * istream) :=
  let '(fb, s) := read_object (bytes_of_bool (qnorm_ q)) s in
  let '(mb, s) := read_object (bytes_of_int64 (m_ q)) s in
  let '(nb, s) := read_object (bytes_of_int64 (n_ q)) s in
  let '(cb, s) := read_object (bytes_of_int64 (codesize_ q)) s in
  let m := int64_of_bytes mb in
  let n := int64_of_bytes nb in
  let codesize := int64_of_bytes cb in
  codes <- vector_of_size x00 codesize ;;
  let '(codes, s) := read_object codes s in
  '(pq, s) <- pq_load pq_default s ;;
  qnorm <- bool_of_bytes fb ;;
  if qnorm then
    norm_codes <- vector_of_size x00 m ;;
    let '(norm_codes, s) := read_object norm_codes s in
    '(npq, s) <- pq_load pq_default s ;;
    Returns ({| m_ := m; n_ := n; pq_ := Some pq; npq_ := Some npq;
                codes_ := codes; norm_codes_ := norm_codes;
                qnorm_ := true; codesize_ := codesize |}, s)
  else
    Returns ({| m_ := m; n_ := n; pq_ := Some pq; npq_ := npq_ q;
                codes_ := codes; norm_codes_ := norm_codes_ q;
                qnorm_ := false; codesize_ := codesize |}, s).

(** [QuantMatrix::dump]: the outcome, the instance and the stream
    afterwards. *)
Definition dump (q : QuantMatrix) (out : ostream)
  : result unit * QuantMatrix * ostream :=
  (Throws not_permitted, q, out).

(** *** Notions the properties are stated with *)

(** The class invariant of a dense matrix handed to the constructor. *)
Definition DenseMatrix_ok (mat : DenseMatrix) : Prop :=
  0 <= dm_rows mat <= int64_max /\ 0 <= dm_cols mat <= int64_max /\
  size (dm_data mat) = dm_rows mat * dm_cols mat.

(** The lifecycle of an instance: built from a dense matrix, or loaded into
    a default-constructed instance. *)
Inductive created : QuantMatrix -> Prop :=
| created_by_quantizing (mat : DenseMatrix) (dsub : Z) (qnorm : bool) (q : QuantMatrix) :
    QuantMatrix_new mat dsub qnorm = Returns q -> created q
| created_by_loading (s s' : istream) (q : QuantMatrix) :
    load QuantMatrix_default s = Returns (q, s') -> created q.

(** The norm block is present exactly when the flag is set. *)
Definition norm_flag_consistent (q : QuantMatrix) : Prop :=
  if qnorm_ q
  then (exists npq, npq_ q = Some npq) /\ size (norm_codes_ q) = m_ q
  else npq_ q = None /\ norm_codes_ q = [].

(** What every operation after creation relies on. *)
Definition well_formed (q : QuantMatrix) : Prop :=
  size (codes_ q) = codesize_ q /\
  (exists pq, pq_ q = Some pq) /\
  norm_flag_consistent q.

(** The three header integers are [int64_t] values. *)
Definition header_in_range (q : QuantMatrix) : Prop :=
  in_int64 (m_ q) = true /\ in_int64 (n_ q) = true /\
  in_int64 (codesize_ q) = true.

(** The factor [norm] of the three query operations. *)
Definition reconstructed_norm (q : QuantMatrix) (i : Z) : result real :=
  if qnorm_ q then
    npq <- deref (npq_ q) ;;
    c <- at_index (norm_codes_ q) i ;;
    at_index (pq_get_centroids npq 0 c) 0
  else Returns rone.

(** The construction algorithm as the spec words it: (1) with norm
    quantization, the row norms go into a vector of length rowCount, every
    row is divided by its norm, the norm quantizer is trained on the norms
    and encodes them into normCodes; (2) the main quantizer is trained on
    the rows; (3) every row is encoded into codes. *)
Definition quantize_steps (q : QuantMatrix) (mat : DenseMatrix) : result QuantMatrix :=
  '(normQuantizer, normCodes, rows) <-
     (if qnorm_ q then
        norms <- vector_of_size rzero (m_ q) ;;
        norms <- l2NormRow mat norms ;;
        rows <- divideRow mat norms ;;
        nq <- deref (npq_ q) ;;
        nq <- pq_train nq (m_ q) norms ;;
        written <- pq_compute_codes nq norms (m_ q) ;;
        normCodes <- write_through (norm_codes_ q) written ;;
        Returns (Some nq, normCodes, rows)
      else Returns (npq_ q, norm_codes_ q, mat)) ;;
  mainQuantizer <- deref (pq_ q) ;;
  mainQuantizer <- pq_train mainQuantizer (m_ q) (dm_data rows) ;;
  written <- pq_compute_codes mainQuantizer (dm_data rows) (m_ q) ;;
  codes <- write_through (codes_ q) written ;;
  Returns {| m_ := m_ q; n_ := n_ q; pq_ := Some mainQuantizer;
             npq_ := normQuantizer; codes_ := codes; norm_codes_ := normCodes;
             qnorm_ := qnorm_ q; codesize_ := codesize_ q |}.

(** The bytes [save] writes after the main quantizer's blob. *)
Definition norm_block (q : QuantMatrix) : list byte :=
  if qnorm_ q then
    norm_codes_ q ++ match npq_ q with Some npq => pq_save npq | None => [] end
  else [].

(** Two quantizers that answer every query alike. *)
Definition same_quantizer (p p' : PQ) : Prop :=
  (forall x codes t a, pq_mulcode p' x codes t a = pq_mulcode p x codes t a) /\
  (forall x codes t a, pq_addcode p' x codes t a = pq_addcode p x codes t a) /\
  (forall m c, pq_get_centroids p' m c = pq_get_centroids p m c).

(** The quantizer's own serialization restores [p] when its blob is
    followed by [rest] in the stream. *)
Definition pq_round_trip (p : PQ) (rest : list byte) : Prop :=
  exists p', pq_load pq_default (istream_of (pq_save p ++ rest))
             = Returns (p', istream_of rest)
             /\ same_quantizer p p'.

End QuantMatrix.

Arguments QuantMatrix PQ : clear implicits.

(* ================================================================== *)
(** ** A reference quantizer and reference row operations

    An executable instance of the two interfaces, used to run the matrix
    code on concrete data.  It follows the spec's description of the
    collaborators: each vector is cut into sub-vectors of [dsub] columns
    (the last one may be shorter), every sub-vector slot has a codebook of
    centroids, a code is the index of the nearest centroid, the approximate
    dot product sums the products of the query with the selected centroids
    and scales the sum, and the approximate accumulation adds the scaled
    centroids to the accumulator.  How codebooks are trained is left open
    by the spec; the reference trainer seeds them from the training
    vectors. *)

Module Sample.

(** Number of centroids of a codebook: one per value of a code byte. *)
Definition ksub : Z := 256.

(** Modelled from the spec: the state of a VectorQuantizer, which
    productquantizer.cc (not part of the sources) would define: vector
    dimension, number of sub-vector slots, sub-vector size, size of the last
    sub-vector, and the codebooks slot after slot. *)
Record SPQ : Type := mk_SPQ {
  dim_ : Z;
  nsubq_ : Z;
  dsub_ : Z;
  lastdsub_ : Z;
  centroids_ : list real
}.

(** [buf[off .. off+len)]. *)
Definition slice {A : Type} (buf : list A) (off len : Z) : result (list A) :=
  if (0 <=? off) && (0 <=? len) && (off + len <=? size buf)
  then Returns (firstn (Z.to_nat len) (skipn (Z.to_nat off) buf))
  else Undefined.

(** [buf] with [part] stored from offset [off] on. *)
Definition store {A : Type} (buf : list A) (off : Z) (part : list A) : result (list A) :=
  if (0 <=? off) && (off + size part <=? size buf)
  then Returns (firstn (Z.to_nat off) buf ++ part
                ++ skipn (Z.to_nat off + length part) buf)
  else Undefined.

Fixpoint mapM {A B : Type} (f : A -> result B) (l : list A) : result (list B) :=
  match l with
  | [] => Returns []
  | a :: rest => b <- f a ;; bs <- mapM f rest ;; Returns (b :: bs)
  end.

Definition upto (n : Z) : list Z := map Z.of_nat (seq 0 (Z.to_nat n)).

Definition slot_width (p : SPQ) (m : Z) : Z :=
  if m =? nsubq_ p - 1 then lastdsub_ p else dsub_ p.

Definition sample_default : SPQ := mk_SPQ 0 0 0 0 [].

Definition sample_new (dim dsub : Z) : result SPQ :=
  if dsub =? 0 then Undefined
  else
    let nsubq := Z.quot dim dsub in
    let last := Z.rem dim dsub in
    cs <- vector_of_size rzero (dim * ksub) ;;
    Returns (if last =? 0 then mk_SPQ dim nsubq dsub dsub cs
             else mk_SPQ dim (nsubq + 1) dsub last cs).

(** Modelled from the spec: [getCentroid(subvectorSlot, code)], as the
    position of that centroid in the codebooks. *)
Definition sample_get_centroids (p : SPQ) (m : Z) (c : byte) : list real :=
  let off := if m =? nsubq_ p - 1
             then m * ksub * dsub_ p + Z_of_byte c * lastdsub_ p
             else (m * ksub + Z_of_byte c) * dsub_ p in
  skipn (Z.to_nat off) (centroids_ p).

(** Modelled from the spec: [train(count, data)] "learns codebooks from
    count vectors".  Codebook of slot [m]: centroid [k] is that slot of
    training vector [k mod n]. *)
Definition sample_train (p : SPQ) (n : Z) (x : list real) : result SPQ :=
  if n <=? 0 then Throws (invalid_argument "Matrix too small for quantization")
  else
    books <- mapM (fun m =>
               cents <- mapM (fun k =>
                          slice x ((k mod n) * dim_ p + m * dsub_ p) (slot_width p m))
                        (upto ksub) ;;
               Returns (concat cents))
             (upto (nsubq_ p)) ;;
    Returns (mk_SPQ (dim_ p) (nsubq_ p) (dsub_ p) (lastdsub_ p) (concat books)).

Definition distL2 (x y : list real) : real :=
  fold_left (fun acc xy => let t := rsub (fst xy) (snd xy) in radd acc (rmul t t))
            (combine x y) rzero.

(** Modelled from the spec: a code is the index of the centroid of slot
    [m] nearest to the sub-vector [x]. *)
Definition assign_centroid (p : SPQ) (m : Z) (x : list real) : result byte :=
  let d := slot_width p m in
  c0 <- slice (sample_get_centroids p m x00) 0 d ;;
  best <- mapM (fun j =>
            c <- slice (sample_get_centroids p m (byte_of_Z j)) 0 d ;;
            Returns (j, distL2 x c))
          (upto ksub) ;;
  Returns (byte_of_Z (fst (fold_left
             (fun acc jd => if rltb (snd jd) (snd acc) then jd else acc)
             best (0, distL2 x c0)))).

(** Modelled from the spec: [encode(data, outCodes, count)] "produces
    count groups of codes", one code per sub-vector slot. *)
Definition sample_compute_codes (p : SPQ) (x : list real) (n : Z)
  : result (list byte) :=
  rows <- mapM (fun i =>
            mapM (fun m =>
                    sub <- slice x (i * dim_ p + m * dsub_ p) (slot_width p m) ;;
                    assign_centroid p m sub)
                 (upto (nsubq_ p)))
          (upto n) ;;
  Returns (concat rows).

Definition dot_from (res : real) (x c : list real) : real :=
  fold_left (fun acc xc => radd acc (rmul (fst xc) (snd xc))) (combine x c) res.

(** Modelled from the spec: [approximateDot(query, codes, rowIndex,
    scale)], the dot product of the query with the centroids selected by
    the codes of row [t], times [alpha]. *)
Definition sample_mulcode (p : SPQ) (x : Vector) (codes : list byte) (t : Z)
  (alpha : real) : result real :=
  code <- slice codes (nsubq_ p * t) (nsubq_ p) ;;
  res <- fold_left (fun acc m =>
           res <- acc ;;
           c <- at_index code m ;;
           xs <- slice x (m * dsub_ p) (slot_width p m) ;;
           cs <- slice (sample_get_centroids p m c) 0 (slot_width p m) ;;
           Returns (dot_from res xs cs))
         (upto (nsubq_ p)) (Returns rzero) ;;
  Returns (rmul res alpha).

(** Modelled from the spec: [approximateAccumulate(accumulator, codes,
    rowIndex, scale)] "adds scale times the reconstructed row into the
    accumulator element-wise". *)
Definition sample_addcode (p : SPQ) (x : Vector) (codes : list byte) (t : Z)
  (alpha : real) : result Vector :=
  code <- slice codes (nsubq_ p * t) (nsubq_ p) ;;
  fold_left (fun acc m =>
     x <- acc ;;
     c <- at_index code m ;;
     xs <- slice x (m * dsub_ p) (slot_width p m) ;;
     cs <- slice (sample_get_centroids p m c) 0 (slot_width p m) ;;
     store x (m * dsub_ p)
           (map (fun xc => radd (fst xc) (rmul alpha (snd xc))) (combine xs cs)))
    (upto (nsubq_ p)) (Returns x).

(** The 32 bits of a binary32 value. *)
Definition bits_of_real (r : real) : Z :=
  let sign (s : bool) := if s then 2 ^ 31 else 0 in
  match r with
  | S754_zero s => sign s
  | S754_infinity s => sign s + 255 * 2 ^ 23
  | S754_nan => 255 * 2 ^ 23 + 2 ^ 22
  | S754_finite s m e =>
      if Z.pos m <? 2 ^ 23 then sign s + Z.pos m
      else sign s + (e + 150) * 2 ^ 23 + (Z.pos m - 2 ^ 23)
  end.

Definition real_of_bits (w : Z) : real :=
  let s := 2 ^ 31 <=? w in
  let e := (w / 2 ^ 23) mod 256 in
  let f := w mod 2 ^ 23 in
  if e =? 0 then
    match f with Z.pos m => S754_finite s m (-149) | _ => S754_zero s end
  else if e =? 255 then
    (if f =? 0 then S754_infinity s else S754_nan)
  else
    match f + 2 ^ 23 with Z.pos m => S754_finite s m (e - 150) | _ => S754_nan end.

Definition bytes_of_int32 (z : Z) : list byte := le_bytes 4 z.

Definition int32_of_bytes (bs : list byte) : Z :=
  let u := le_value bs in
  if u <? 2 ^ 31 then u else u - 2 ^ 32.

Definition bytes_of_real (r : real) : list byte := le_bytes 4 (bits_of_real r).

(** Modelled from the spec: the quantizer's "opaque self-contained binary
    serialization": four 32-bit integers, then the centroids. *)
Definition sample_save (p : SPQ) : list byte :=
  bytes_of_int32 (dim_ p) ++ bytes_of_int32 (nsubq_ p)
  ++ bytes_of_int32 (dsub_ p) ++ bytes_of_int32 (lastdsub_ p)
  ++ flat_map bytes_of_real (centroids_ p).

Fixpoint read_reals (old : list real) (s : istream) : list real * istream :=
  match old with
  | [] => ([], s)
  | r :: rest =>
      let '(b, s) := read_object (bytes_of_real r) s in
      let '(rs, s) := read_reals rest s in
      (real_of_bits (le_value b) :: rs, s)
  end.

Definition sample_load (p : SPQ) (s : istream) : result (SPQ * istream) :=
  let '(b, s) := read_object (bytes_of_int32 (dim_ p)) s in
  let dim := int32_of_bytes b in
  let '(b, s) := read_object (bytes_of_int32 (nsubq_ p)) s in
  let nsubq := int32_of_bytes b in
  let '(b, s) := read_object (bytes_of_int32 (dsub_ p)) s in
  let dsub := int32_of_bytes b in
  let '(b, s) := read_object (bytes_of_int32 (lastdsub_ p)) s in
  let last := int32_of_bytes b in
  cs <- vector_of_size rzero (dim * ksub) ;;
  let '(cs, s) := read_reals cs s in
  Returns (mk_SPQ dim nsubq dsub last cs, s).

#[export] Instance sample_quantizer : ProductQuantizer SPQ := {
  pq_default := sample_default;
  pq_new := sample_new;
  pq_train := sample_train;
  pq_compute_codes := sample_compute_codes;
  pq_get_centroids := sample_get_centroids;
  pq_mulcode := sample_mulcode;
  pq_addcode := sample_addcode;
  pq_save := sample_save;
  pq_load := sample_load
}.

(** Row [i] of a row-major matrix. *)
Definition row (mat : DenseMatrix) (i : Z) : result (list real) :=
  slice (dm_data mat) (i * dm_cols mat) (dm_cols mat).

(** Modelled from the spec: the "per-row Euclidean norm computation". *)
Definition sample_l2NormRow (mat : DenseMatrix) (norms : Vector) : result Vector :=
  assert (size norms =? dm_rows mat) ;;;
  mapM (fun i =>
          r <- row mat i ;;
          Returns (rsqrt (fold_left (fun acc v => radd acc (rmul v v)) r rzero)))
       (upto (dm_rows mat)).

(** Modelled from the spec: the "row-wise scalar division"; a row whose
    divisor is zero is left as it is. *)
Definition sample_divideRow (mat : DenseMatrix) (denoms : Vector) : result DenseMatrix :=
  assert (size denoms =? dm_rows mat) ;;;
  rows <- mapM (fun i =>
            r <- row mat i ;;
            d <- at_index denoms i ;;
            Returns (if reqb d rzero then r else map (fun v => rdiv v d) r))
          (upto (dm_rows mat)) ;;
  Returns (mk_DenseMatrix (dm_rows mat) (dm_cols mat) (concat rows)).

#[export] Instance sample_dense : DenseOps := {
  l2NormRow := sample_l2NormRow;
  divideRow := sample_divideRow
}.

(** A 2 x 2 matrix with rows (3, 4) and (0, 2). *)
Definition mat22 : DenseMatrix :=
  mk_DenseMatrix 2 2 (map real_of_Z [3; 4; 0; 2]).

(** A 4 x 8 matrix with entries 1 .. 32. *)
Definition mat48 : DenseMatrix :=
  mk_DenseMatrix 4 8 (map real_of_Z (map (fun k => k + 1) (upto 32))).

(** The instance built from [mat22] with [dsub = 2] and norm quantization. *)
Definition from_result {A : Type} (dflt : A) (r : result A) : A :=
  match r with Returns a => a | _ => dflt end.

Definition q22 : QuantMatrix SPQ :=
  Eval vm_compute in
    from_result QuantMatrix_default (QuantMatrix_new mat22 2 true).

(** The instance built from [mat48] with [dsub = 2], no norm quantization. *)
Definition q48 : QuantMatrix SPQ :=
  Eval vm_compute in
    from_result QuantMatrix_default (QuantMatrix_new mat48 2 false).

(** The instance the constructor hands to [quantize] for [mat22]: sized
    buffers and untrained quantizers. *)
Definition q22_initial : QuantMatrix SPQ :=
  {| m_ := 2; n_ := 2;
     pq_ := Some (from_result sample_default (sample_new 2 2));
     npq_ := Some (from_result sample_default (sample_new 1 1));
     codes_ := [x00; x00]; norm_codes_ := [x00; x00];
     qnorm_ := true; codesize_ := 2 |}.

(** The trained quantizers of [q22]. *)
Definition q22_main : SPQ :=
  Eval vm_compute in from_result sample_default (deref (pq_ q22)).
Definition q22_norm : SPQ :=
  Eval vm_compute in from_result sample_default (deref (npq_ q22)).

(** A query and an accumulator of length 2. *)
Definition ones : Vector := [rone; rone].
Definition zeros : Vector := [rzero; rzero].

(** A stream whose header announces 0 rows, 0 columns and a code buffer of
    one byte, followed by that byte and the blob of an empty quantizer. *)
Definition header_0_0_1 : list byte :=
  bytes_of_bool false ++ bytes_of_int64 0 ++ bytes_of_int64 0
  ++ bytes_of_int64 1 ++ [x2a] ++ sample_save sample_default.

End Sample.

(* ================================================================== *)
(** * Properties *)

(** ** Integers and their object representation *)

Lemma Z_of_byte_range (b : byte) : 0 <= Z_of_byte b < 256.
Proof.
  unfold Z_of_byte. pose proof (Byte.to_N_bounded b). lia.
Qed.

Lemma Z_of_byte_of_Z (z : Z) : Z_of_byte (byte_of_Z z) = z mod 256.
Proof.
  unfold byte_of_Z, Z_of_byte.
  pose proof (Z.mod_pos_bound z 256 ltac:(lia)) as Hr.
  destruct (Byte.of_N (Z.to_N (z mod 256))) as [b|] eqn:E.
  - apply Byte.to_of_N in E. rewrite E. lia.
  - apply Byte.of_N_None_iff in E. lia.
Qed.

Lemma length_le_bytes (k : nat) (z : Z) : length (le_bytes k z) = k.
Proof.
  revert z. induction k as [|k IH]; intros z; simpl; [reflexivity|].
  now rewrite IH.
Qed.

Lemma le_value_le_bytes (k : nat) (z : Z) :
  le_value (le_bytes k z) = z mod 256 ^ Z.of_nat k.
Proof.
  revert z. induction k as [|k IH]; intros z.
  - simpl. now rewrite Z.mod_1_r.
  - cbn [le_bytes le_value]. rewrite IH, Z_of_byte_of_Z.
    rewrite Nat2Z.inj_succ, Z.pow_succ_r by lia.
    rewrite Z.rem_mul_r by lia. reflexivity.
Qed.

Lemma int64_of_bytes_of_int64 (z : Z) :
  in_int64 z = true -> int64_of_bytes (bytes_of_int64 z) = z.
Proof.
  unfold in_int64, int64_min, int64_max, int64_of_bytes, bytes_of_int64.
  rewrite andb_true_iff, !Z.leb_le. intros [Hlo Hhi].
  rewrite le_value_le_bytes.
  change (256 ^ Z.of_nat 8) with (2 ^ 64).
  destruct (Z.ltb_spec z 0) as [Hneg|Hpos].
  - replace (z mod 2 ^ 64) with (z + 2 ^ 64).
    + destruct (Z.ltb_spec (z + 2 ^ 64) (2 ^ 63)); lia.
    + apply Z.mod_unique with (q := -1); lia.
  - rewrite Z.mod_small by lia.
    destruct (Z.ltb_spec z (2 ^ 63)); lia.
Qed.

Lemma length_bytes_of_int64 (z : Z) : length (bytes_of_int64 z) = 8%nat.
Proof. apply length_le_bytes. Qed.

Lemma length_bytes_of_bool (b : bool) : length (bytes_of_bool b) = 1%nat.
Proof. reflexivity. Qed.

Lemma bool_of_bytes_of_bool (b : bool) : bool_of_bytes (bytes_of_bool b) = Returns b.
Proof. now destruct b. Qed.

Lemma checked64_Returns (z r : Z) :
  checked64 z = Returns r -> r = z /\ in_int64 z = true.
Proof.
  unfold checked64. destruct (in_int64 z); [|discriminate].
  intros [= <-]. now split.
Qed.

(** The constructor's expression is the ceiling of the quotient. *)
Lemma quot_is_ceil_div (n d : Z) :
  0 <= n -> 0 < d -> Z.quot (n + d - 1) d = ceil_div n d.
Proof.
  intros Hn Hd. rewrite Z.quot_div_nonneg by lia.
  unfold ceil_div, Qceiling, Qfloor, Qdiv.
  destruct d as [|p|p]; try lia.
  cbn [inject_Z Qinv Qmult Qopp Qnum Qden].
  rewrite Pos.mul_1_l, Z.mul_1_r.
  pose proof (Z.div_mod (- n) (Z.pos p) ltac:(lia)) as Hdm.
  pose proof (Z.mod_pos_bound (- n) (Z.pos p) ltac:(lia)) as Hb.
  symmetry. apply Z.div_unique with (r := Z.pos p - 1 - (- n) mod Z.pos p); lia.
Qed.

(** ** Buffers and streams *)

Lemma size_repeat {A : Type} (a : A) (n : Z) :
  0 <= n -> size (repeat a (Z.to_nat n)) = n.
Proof. intros H. unfold size. rewrite repeat_length. lia. Qed.

Lemma vector_of_size_Returns {A : Type} (dflt : A) (n : Z) (v : list A) :
  vector_of_size dflt n = Returns v -> 0 <= n /\ size v = n /\ v = repeat dflt (Z.to_nat n).
Proof.
  unfold vector_of_size. destruct (Z.ltb_spec n 0); [discriminate|].
  intros [= <-]. repeat split; [lia|]. now apply size_repeat.
Qed.

Lemma length_overwrite (old got : list byte) :
  (length got <= length old)%nat -> length (overwrite old got) = length old.
Proof.
  intros H. unfold overwrite. rewrite length_app, length_skipn. lia.
Qed.

Lemma overwrite_all (old got : list byte) :
  length got = length old -> overwrite old got = got.
Proof.
  intros H. unfold overwrite. rewrite H, skipn_all. apply app_nil_r.
Qed.

Lemma write_through_Returns (buf written r : list byte) :
  write_through buf written = Returns r -> length r = length buf.
Proof.
  unfold write_through. destruct (Nat.leb_spec (length written) (length buf)); [|discriminate].
  intros [= <-]. now apply length_overwrite.
Qed.

Lemma length_istream_read (n : nat) (s : istream) :
  (length (fst (istream_read n s)) <= n)%nat.
Proof.
  unfold istream_read. destruct (is_fail s); simpl; [lia|].
  destruct (Nat.leb_spec n (length (is_bytes s))); simpl.
  - rewrite length_firstn. lia.
  - lia.
Qed.

Lemma length_read_object (old : list byte) (s : istream) :
  length (fst (read_object old s)) = length old.
Proof.
  unfold read_object. pose proof (length_istream_read (length old) s) as H.
  destruct (istream_read (length old) s) as [got s']. simpl in *.
  now apply length_overwrite.
Qed.

(** Reading an object whose bytes are at the head of the stream. *)
Lemma read_object_app (old bs rest : list byte) :
  length bs = length old ->
  read_object old (istream_of (bs ++ rest)) = (bs, istream_of rest).
Proof.
  intros H. unfold read_object, istream_read, istream_of. simpl.
  rewrite length_app.
  destruct (Nat.leb_spec (length old) (length bs + length rest)); [|lia].
  rewrite <- H, firstn_app, firstn_all, Nat.sub_diag, skipn_app, skipn_all, Nat.sub_diag.
  simpl. rewrite app_nil_r, overwrite_all by assumption. reflexivity.
Qed.

Lemma buffer_prefix_all (buf : list byte) :
  buffer_prefix buf (size buf) = Returns buf.
Proof.
  unfold buffer_prefix, size. rewrite Nat2Z.id, firstn_all.
  destruct (Z.leb_spec 0 (Z.of_nat (length buf))); [|lia].
  now rewrite Z.leb_refl.
Qed.

(** ** Reals *)

(** Multiplying a [float] by [1.0f] returns it unchanged. *)
Lemma rmul_1_l (x : real) : real_valid x = true -> rmul rone x = x.
Proof.
  destruct x as [s|s| |s m e]; try reflexivity.
  unfold real_valid, valid_binary, bounded, canonical_mantissa.
  rewrite andb_true_iff, Z.eqb_eq, Z.leb_le. intros [Hcanon Hbound].
  unfold rmul, rone, SFmul. cbn [xorb].
  unfold binary_round_aux, shr_fexp.
  change (Zdigits2 (Z.pos (8388608 * m))) with (Z.pos (digits2_pos (8388608 * m))).
  change (8388608 * m)%positive
    with (m~0~0~0~0~0~0~0~0~0~0~0~0~0~0~0~0~0~0~0~0~0~0~0)%positive.
  assert (Hdigits : Z.pos (digits2_pos
            (m~0~0~0~0~0~0~0~0~0~0~0~0~0~0~0~0~0~0~0~0~0~0~0))
          = Z.pos (digits2_pos m) + 23) by (cbn [digits2_pos]; lia).
  rewrite Hdigits.
  replace (Z.pos (digits2_pos m) + 23 + (-23 + e)) with (Z.pos (digits2_pos m) + e) by lia.
  rewrite Hcanon. replace (e - (-23 + e)) with 23 by lia.
  cbn -[Z.add Z.sub fexp Z.leb].
  replace (-23 + e + 23) with e by lia.
  rewrite Hcanon, Z.sub_diag.
  cbn -[Z.sub Z.leb].
  apply Z.leb_le in Hbound. unfold prec32, emax32 in *. now rewrite Hbound.
Qed.

(** ** Sequencing *)

Lemma bind_Returns {A B : Type} (c : result A) (k : A -> result B) (b : B) :
  bind c k = Returns b -> exists a, c = Returns a /\ k a = Returns b.
Proof.
  destruct c as [a| | |]; simpl; try discriminate.
  intros H. now exists a.
Qed.

Lemma assert_Returns (c : bool) (u : unit) : assert c = Returns u -> c = true.
Proof. now destruct c. Qed.

Lemma deref_Returns {A : Type} (p : option A) (a : A) :
  deref p = Returns a -> p = Some a.
Proof. destruct p; simpl; [now intros [= ->] | discriminate]. Qed.

(** Peel the first call off a sequence that returned. *)
Ltac peel H x Hx :=
  apply bind_Returns in H; destruct H as (x & Hx & H).

Section QuantMatrixFacts.

Context {PQ : Type} {PQops : ProductQuantizer PQ} {Dops : DenseOps}.

Implicit Types (q : QuantMatrix PQ) (mat : DenseMatrix).

(** ** What quantization leaves alone *)

Lemma quantizeNorm_Returns q norms q' :
  quantizeNorm q norms = Returns q' ->
  m_ q' = m_ q /\ n_ q' = n_ q /\ qnorm_ q' = qnorm_ q /\
  codesize_ q' = codesize_ q /\ pq_ q' = pq_ q /\ codes_ q' = codes_ q /\
  (exists npq, npq_ q' = Some npq) /\
  length (norm_codes_ q') = length (norm_codes_ q).
Proof.
  unfold quantizeNorm. intros H.
  peel H u1 H1. peel H u2 H2. peel H npq H3. peel H npq' H4.
  peel H written H5. peel H nc H6.
  injection H as <-. simpl.
  apply write_through_Returns in H6.
  repeat split; try reflexivity; eauto.
Qed.

Lemma quantize_Returns q mat q' :
  quantize q mat = Returns q' ->
  m_ q' = m_ q /\ n_ q' = n_ q /\ qnorm_ q' = qnorm_ q /\
  codesize_ q' = codesize_ q /\
  (exists pq, pq_ q' = Some pq) /\
  length (codes_ q') = length (codes_ q) /\
  length (norm_codes_ q') = length (norm_codes_ q) /\
  (if qnorm_ q then exists npq, npq_ q' = Some npq
   else npq_ q' = npq_ q /\ norm_codes_ q' = norm_codes_ q).
Proof.
  unfold quantize. intros H.
  peel H qm H0. destruct qm as [q1 mat1].
  peel H pq H1. peel H pq' H2. peel H written H3. peel H cs H4.
  injection H as <-. simpl.
  apply write_through_Returns in H4.
  destruct (qnorm_ q) eqn:Eq.
  - peel H0 v0 G0. peel H0 norms G1. peel H0 mat' G2. peel H0 q2 G3.
    injection H0 as <- <-.
    apply quantizeNorm_Returns in G3.
    destruct G3 as (Em & En & Eqn & Ecs & Epq & Ecodes & Enpq & Enc).
    rewrite Ecodes in H4.
    repeat split; eauto; congruence.
  - injection H0 as <- <-. rewrite Eq.
    repeat split; eauto.
Qed.

(** ** What the constructor establishes *)

Lemma QuantMatrix_new_Returns mat dsub qnorm q :
  QuantMatrix_new mat dsub qnorm = Returns q ->
  m_ q = dm_rows mat /\ n_ q = dm_cols mat /\ qnorm_ q = qnorm /\
  codesize_ q = dm_rows mat * Z.quot (dm_cols mat + dsub - 1) dsub /\
  dsub <> 0 /\
  in_int64 (codesize_ q) = true /\
  size (codes_ q) = codesize_ q /\
  (exists pq, pq_ q = Some pq) /\
  norm_flag_consistent q.
Proof.
  unfold QuantMatrix_new. intros H.
  peel H t1 H1. peel H t2 H2. peel H t3 H3. peel H cs H4.
  peel H codes H5. peel H pq H6. peel H nn H7. destruct nn as [nc npq].
  apply checked64_Returns in H1 as [-> _].
  apply checked64_Returns in H2 as [-> _].
  unfold div64 in H3. destruct (Z.eqb_spec dsub 0) as [|Hd]; [discriminate|].
  apply checked64_Returns in H3 as [-> _].
  apply checked64_Returns in H4 as [-> Hcs].
  apply vector_of_size_Returns in H5 as (Hcs0 & Hsz & _).
  apply quantize_Returns in H. cbn [m_ n_ qnorm_ codesize_ codes_ norm_codes_ npq_] in H.
  destruct H as (Em & En & Eqn & Ecs & Epq & Ecodes & Enc & Enorm).
  unfold norm_flag_consistent, size in *.
  rewrite Em, En, Eqn, Ecs, Ecodes, Enc.
  repeat split; auto.
  destruct qnorm.
  - peel H7 nc0 G1. peel H7 np G2. injection H7 as <- <-.
    apply vector_of_size_Returns in G1 as (_ & G1 & _).
    split; [exact Enorm | exact G1].
  - injection H7 as <- <-. destruct Enorm as [-> ->]. now split.
Qed.

(** ** What loading establishes *)

Lemma load_Returns q0 s q s' :
  load q0 s = Returns (q, s') ->
  size (codes_ q) = codesize_ q /\
  (exists pq, pq_ q = Some pq) /\
  (if qnorm_ q
   then (exists npq, npq_ q = Some npq) /\ size (norm_codes_ q) = m_ q
   else npq_ q = npq_ q0 /\ norm_codes_ q = norm_codes_ q0).
Proof.
  unfold load. intros H.
  destruct (read_object (bytes_of_bool (qnorm_ q0)) s) as [fb s1].
  destruct (read_object (bytes_of_int64 (m_ q0)) s1) as [mb s2].
  destruct (read_object (bytes_of_int64 (n_ q0)) s2) as [nb s3].
  destruct (read_object (bytes_of_int64 (codesize_ q0)) s3) as [cb s4].
  peel H codes0 H1.
  pose proof (length_read_object codes0 s4) as Hlen.
  destruct (read_object codes0 s4) as [codes s5]. simpl in Hlen.
  peel H ps H2. destruct ps as [pq s6].
  peel H qn H3.
  apply vector_of_size_Returns in H1 as (_ & Hsz & _).
  destruct qn.
  - peel H nc0 H4.
    pose proof (length_read_object nc0 s6) as Hlen'.
    destruct (read_object nc0 s6) as [nc s7]. simpl in Hlen'.
    peel H ps' H5. destruct ps' as [npq s8].
    injection H as <- <-. simpl.
    apply vector_of_size_Returns in H4 as (_ & Hsz' & _).
    unfold size in *. rewrite Hlen, Hlen'. repeat split; eauto.
  - injection H as <- <-. simpl.
    unfold size in *. rewrite Hlen. repeat split; eauto.
Qed.

Lemma created_well_formed q : created q -> well_formed q.
Proof.
  unfold well_formed.
  intros [mat dsub qnorm q' H | s s' q' H].
  - apply QuantMatrix_new_Returns in H. tauto.
  - apply load_Returns in H. unfold norm_flag_consistent.
    destruct H as (H1 & H2 & H3). repeat split; auto.
Qed.

(** ** The query operations in terms of the resolved norm *)

Lemma dotRow_unfold q vec i :
  dotRow q vec i =
  (assert (0 <=? i) ;;; assert (i <? m_ q) ;;; assert (size vec =? n_ q) ;;;
   norm <- reconstructed_norm q i ;; pq <- deref (pq_ q) ;;
   pq_mulcode pq vec (codes_ q) i norm).
Proof. reflexivity. Qed.

Lemma addRowToVector_scaled_unfold q acc i a :
  addRowToVector_scaled q acc i a =
  (norm <- reconstructed_norm q i ;; pq <- deref (pq_ q) ;;
   pq_addcode pq acc (codes_ q) i (rmul a norm)).
Proof. reflexivity. Qed.

Lemma addRowToVector_unfold q acc i :
  addRowToVector q acc i =
  (norm <- reconstructed_norm q i ;; pq <- deref (pq_ q) ;;
   pq_addcode pq acc (codes_ q) i norm).
Proof. reflexivity. Qed.

Lemma dotRow_in_range q vec i :
  0 <= i < m_ q -> size vec = n_ q ->
  dotRow q vec i =
  (norm <- reconstructed_norm q i ;; pq <- deref (pq_ q) ;;
   pq_mulcode pq vec (codes_ q) i norm).
Proof.
  intros Hi Hv. rewrite dotRow_unfold.
  destruct (Z.leb_spec 0 i); [|lia].
  destruct (Z.ltb_spec i (m_ q)); [|lia].
  rewrite Hv, Z.eqb_refl. reflexivity.
Qed.

(** On a well-formed instance the norm of a valid row is read from the
    norm quantizer's centroid for that row's code. *)
Lemma reconstructed_norm_well_formed q i :
  well_formed q -> 0 <= i < m_ q ->
  if qnorm_ q
  then exists npq c, npq_ q = Some npq /\
         nth_error (norm_codes_ q) (Z.to_nat i) = Some c /\
         reconstructed_norm q i = at_index (pq_get_centroids npq 0 c) 0
  else reconstructed_norm q i = Returns rone.
Proof.
  intros (_ & _ & Hn) Hi. unfold norm_flag_consistent, reconstructed_norm in *.
  destruct (qnorm_ q); [|reflexivity].
  destruct Hn as [[npq Hnpq] Hsz]. rewrite Hnpq. simpl.
  unfold at_index at 1. rewrite Hsz.
  destruct (Z.leb_spec 0 i); [|lia]. destruct (Z.ltb_spec i (m_ q)); [|lia].
  simpl. destruct (nth_error (norm_codes_ q) (Z.to_nat i)) as [c|] eqn:E.
  - exists npq, c. repeat split; reflexivity.
  - apply nth_error_None in E. unfold size in Hsz. lia.
Qed.

(** ** The bytes written by save and read back by load *)

Lemma save_bytes q out :
  well_formed q ->
  exists pq, pq_ q = Some pq /\
    save q out =
    Returns (out ++ bytes_of_bool (qnorm_ q) ++ bytes_of_int64 (m_ q)
             ++ bytes_of_int64 (n_ q) ++ bytes_of_int64 (codesize_ q)
             ++ codes_ q ++ pq_save pq ++ norm_block q).
Proof.
  intros (Hc & [pq Hpq] & Hn). exists pq. split; [exact Hpq|].
  unfold save, norm_block, norm_flag_consistent, ostream_write in *.
  rewrite <- Hc, buffer_prefix_all, Hpq. cbn [bind deref].
  destruct (qnorm_ q).
  - destruct Hn as [[npq Hnpq] Hsz].
    rewrite <- Hsz, buffer_prefix_all, Hnpq. cbn [bind deref].
    now rewrite <- !app_assoc.
  - now rewrite app_nil_r, <- !app_assoc.
Qed.

Lemma load_header q0 flag m n cs rest q s' :
  in_int64 m = true -> in_int64 n = true -> in_int64 cs = true ->
  load q0 (istream_of (bytes_of_bool flag ++ bytes_of_int64 m
                       ++ bytes_of_int64 n ++ bytes_of_int64 cs ++ rest))
  = Returns (q, s') ->
  qnorm_ q = flag /\ m_ q = m /\ n_ q = n /\ codesize_ q = cs.
Proof.
  intros Hm Hn Hcs. unfold load.
  rewrite read_object_app by reflexivity.
  rewrite read_object_app by (now rewrite !length_bytes_of_int64).
  rewrite read_object_app by (now rewrite !length_bytes_of_int64).
  rewrite read_object_app by (now rewrite !length_bytes_of_int64).
  rewrite !int64_of_bytes_of_int64, bool_of_bytes_of_bool by assumption.
  intros H. peel H codes0 H1.
  destruct (read_object codes0 (istream_of rest)) as [codes s5].
  peel H ps H2. destruct ps as [pq s6]. cbn [bind] in H.
  destruct flag.
  - peel H nc0 H4. destruct (read_object nc0 s6) as [nc s7].
    peel H ps' H5. destruct ps' as [npq s8].
    injection H as <- <-. now simpl.
  - injection H as <- <-. now simpl.
Qed.

Lemma load_save q :
  well_formed q -> header_in_range q ->
  (forall pq, pq_ q = Some pq -> pq_round_trip pq (norm_block q)) ->
  (forall npq, npq_ q = Some npq -> pq_round_trip npq []) ->
  exists bytes q',
    save q [] = Returns bytes /\
    load QuantMatrix_default (istream_of bytes) = Returns (q', istream_of []) /\
    m_ q' = m_ q /\ n_ q' = n_ q /\ codesize_ q' = codesize_ q /\
    qnorm_ q' = qnorm_ q /\
    codes_ q' = codes_ q /\ norm_codes_ q' = norm_codes_ q /\
    (exists pq pq', pq_ q = Some pq /\ pq_ q' = Some pq' /\ same_quantizer pq pq') /\
    (if qnorm_ q
     then exists npq npq', npq_ q = Some npq /\ npq_ q' = Some npq'
                           /\ same_quantizer npq npq'
     else npq_ q' = None).
Proof.
  intros Hwf (Hm & Hn & Hcs) Hmain Hnorm.
  destruct (save_bytes q [] Hwf) as (pq & Hpq & Hsave).
  destruct Hwf as (Hc & _ & Hflag).
  destruct (Hmain pq Hpq) as (pq' & Hload & Hsame).
  assert (Hcs0 : 0 <= codesize_ q) by (unfold size in Hc; lia).
  assert (Hhead : forall tail,
    load QuantMatrix_default
      (istream_of (bytes_of_bool (qnorm_ q) ++ bytes_of_int64 (m_ q)
                   ++ bytes_of_int64 (n_ q) ++ bytes_of_int64 (codesize_ q)
                   ++ codes_ q ++ tail))
    = ('(pq, s) <- pq_load pq_default (istream_of tail) ;;
       if qnorm_ q then
         norm_codes <- vector_of_size x00 (m_ q) ;;
         let '(norm_codes, s) := read_object norm_codes s in
         '(npq, s) <- pq_load pq_default s ;;
         Returns ({| m_ := m_ q; n_ := n_ q; pq_ := Some pq; npq_ := Some npq;
                     codes_ := codes_ q; norm_codes_ := norm_codes;
                     qnorm_ := true; codesize_ := codesize_ q |}, s)
       else
         Returns ({| m_ := m_ q; n_ := n_ q; pq_ := Some pq; npq_ := None;
                     codes_ := codes_ q; norm_codes_ := [];
                     qnorm_ := false; codesize_ := codesize_ q |}, s))).
  { intros tail. unfold load.
    rewrite read_object_app by reflexivity.
    rewrite read_object_app by (now rewrite !length_bytes_of_int64).
    rewrite read_object_app by (now rewrite !length_bytes_of_int64).
    rewrite read_object_app by (now rewrite !length_bytes_of_int64).
    rewrite !int64_of_bytes_of_int64 by assumption.
    unfold vector_of_size at 1.
    destruct (Z.ltb_spec (codesize_ q) 0); [lia|]. cbn [bind].
    rewrite read_object_app
      by (rewrite repeat_length; unfold size in Hc; lia).
    destruct (pq_load pq_default (istream_of tail)) as [[p s]| | |]; try reflexivity.
    cbn [bind]. rewrite bool_of_bytes_of_bool. reflexivity. }
  unfold norm_flag_consistent, norm_block in *.
  destruct (qnorm_ q) eqn:Eflag.
  - destruct Hflag as [[npq Hnpq] Hsz].
    destruct (Hnorm npq Hnpq) as (npq' & Hload' & Hsame').
    rewrite app_nil_r in Hload'. rewrite Hnpq in *.
    assert (Hm0 : 0 <= m_ q) by (unfold size in Hsz; lia).
    eexists. eexists. split; [exact Hsave|].
    cbn [app]. rewrite Hhead, Hload. cbn [bind].
    unfold vector_of_size.
    destruct (Z.ltb_spec (m_ q) 0); [lia|]. cbn [bind].
    rewrite read_object_app
      by (rewrite repeat_length; unfold size in Hsz; lia).
    rewrite Hload'. cbn [bind].
    split; [reflexivity|]. simpl.
    repeat split; eauto 8.
  - destruct Hflag as [Hnone Hnil].
    eexists. eexists. split; [exact Hsave|].
    cbn [app]. rewrite Hhead, Hload. cbn [bind].
    split; [reflexivity|]. simpl.
    repeat split; eauto 8.
Qed.

End QuantMatrixFacts.

(* ================================================================== *)
(** * The specified properties *)

Section Specification.

Context {PQ : Type} {PQops : ProductQuantizer PQ} {Dops : DenseOps}.

Implicit Types (q x : QuantMatrix PQ) (mat : DenseMatrix).

(** Instances that agree on every field the queries read answer alike. *)
Lemma queries_agree q q' :
  m_ q' = m_ q -> n_ q' = n_ q -> qnorm_ q' = qnorm_ q ->
  codes_ q' = codes_ q -> norm_codes_ q' = norm_codes_ q ->
  (exists pq pq', pq_ q = Some pq /\ pq_ q' = Some pq' /\ same_quantizer pq pq') ->
  (if qnorm_ q
   then exists npq npq', npq_ q = Some npq /\ npq_ q' = Some npq'
                         /\ same_quantizer npq npq'
   else True) ->
  (forall vec i, dotRow q' vec i = dotRow q vec i) /\
  (forall acc i a, addRowToVector_scaled q' acc i a = addRowToVector_scaled q acc i a) /\
  (forall acc i, addRowToVector q' acc i = addRowToVector q acc i).
Proof.
  intros Em En Eq Ec Enc (pq & pq' & Hpq & Hpq' & Hmul & Hadd & _) Hnorm.
  assert (Hn : forall i, reconstructed_norm q' i = reconstructed_norm q i).
  { intros i. unfold reconstructed_norm. rewrite Eq, Enc.
    destruct (qnorm_ q); [|reflexivity].
    destruct Hnorm as (npq & npq' & -> & -> & _ & _ & Hcent). simpl.
    destruct (at_index (norm_codes_ q) i); simpl; try reflexivity.
    now rewrite Hcent. }
  repeat split; intros;
    rewrite ?dotRow_unfold, ?addRowToVector_scaled_unfold, ?addRowToVector_unfold;
    rewrite ?Em, ?En, Ec, Hpq, Hpq', Hn;
    repeat match goal with
           | |- context [bind ?c _] => destruct c; cbn [bind deref]; try reflexivity
           end; auto.
Qed.

(** C1. For every created instance, every row index [i] in [0, rowCount)
    and every query of length colCount, [dotRow] returns the main
    quantizer's approximate dot product [mulcode] of the query with the
    codes at row [i], scaled by [norm]: [norm] is 1 when norm quantization
    is off, and otherwise the scalar at the norm quantizer's centroid of
    slot 0 for the code [normCodes[i]]. *)
Theorem dotRow_spec q vec i :
  created q -> 0 <= i < m_ q -> size vec = n_ q ->
  exists pq, pq_ q = Some pq /\
    if qnorm_ q then
      exists npq c, npq_ q = Some npq /\
        nth_error (norm_codes_ q) (Z.to_nat i) = Some c /\
        dotRow q vec i =
        (norm <- at_index (pq_get_centroids npq 0 c) 0 ;;
         pq_mulcode pq vec (codes_ q) i norm)
    else dotRow q vec i = pq_mulcode pq vec (codes_ q) i rone.
Proof.
  intros Hq Hi Hv. apply created_well_formed in Hq.
  pose proof (reconstructed_norm_well_formed q i Hq Hi) as Hn.
  destruct Hq as (_ & [pq Hpq] & _). exists pq. split; [exact Hpq|].
  rewrite dotRow_in_range, Hpq by assumption.
  destruct (qnorm_ q).
  - destruct Hn as (npq & c & Hnpq & Hc & ->). exists npq, c.
    repeat split; auto.
  - now rewrite Hn.
Qed.

(** C2 (amended). After construction from a dense matrix with [m] rows and
    [n] columns and a sub-vector size [d >= 1], codeBufferSize is
    [m * ceil(n / d)].  Loading takes codeBufferSize from the stream: an
    instance loaded from the bytes [save] wrote for the constructed
    instance has its rowCount, colCount and codeBufferSize, hence satisfies
    the same equation. *)
Theorem codesize_equation mat dsub qnorm q :
  DenseMatrix_ok mat -> 0 < dsub ->
  QuantMatrix_new mat dsub qnorm = Returns q ->
  m_ q = dm_rows mat /\ n_ q = dm_cols mat /\
  codesize_ q = dm_rows mat * ceil_div (dm_cols mat) dsub /\
  forall bytes q' s',
    save q [] = Returns bytes ->
    load QuantMatrix_default (istream_of bytes) = Returns (q', s') ->
    codesize_ q' = m_ q' * ceil_div (n_ q') dsub.
Proof.
  intros (Hrows & Hcols & _) Hd Hnew.
  pose proof (created_well_formed q (created_by_quantizing _ _ _ _ Hnew)) as Hwf.
  apply QuantMatrix_new_Returns in Hnew.
  destruct Hnew as (Em & En & _ & Ecs & _ & Hcs & _).
  rewrite quot_is_ceil_div in Ecs by lia.
  repeat split; auto.
  intros bytes q' s' Hsave Hload.
  destruct (save_bytes q [] Hwf) as (pq & _ & Hsave').
  rewrite Hsave' in Hsave. injection Hsave as <-. cbn [app] in Hload.
  apply load_header in Hload; trivial.
  - destruct Hload as (_ & -> & -> & ->). congruence.
  - unfold in_int64, int64_min, int64_max in *. lia.
  - unfold in_int64, int64_min, int64_max in *. lia.
Qed.

(** C3. Quantization runs the steps of the construction algorithm in their
    order: with norm quantization, the row norms are computed into a vector
    of length rowCount, the rows are divided by their norms, the norm
    quantizer is trained on the norms and encodes them into normCodes; then
    the main quantizer is trained on the (possibly normalized) rows and
    encodes every row into codes. *)
Theorem quantize_follows_steps q mat :
  m_ q = dm_rows mat ->
  (forall norms,
      l2NormRow mat (repeat rzero (Z.to_nat (dm_rows mat))) = Returns norms ->
      size norms = dm_rows mat) ->
  quantize q mat = quantize_steps q mat.
Proof.
  intros Hm Hlen. unfold quantize, quantize_steps.
  destruct (qnorm_ q) eqn:Eq; [|cbn [bind]; now rewrite Eq].
  rewrite <- Hm in *. unfold vector_of_size.
  destruct (m_ q <? 0); [reflexivity|]. cbn [bind].
  destruct (l2NormRow mat (repeat rzero (Z.to_nat (m_ q)))) as [norms| | |] eqn:El;
    try reflexivity.
  cbn [bind]. specialize (Hlen norms eq_refl).
  destruct (divideRow mat norms) as [mat'| | |]; try reflexivity.
  cbn [bind]. unfold quantizeNorm.
  rewrite Eq, Hlen, Z.eqb_refl. cbn [assert bind].
  destruct (deref (npq_ q)) as [npq| | |]; try reflexivity. cbn [bind].
  destruct (pq_train npq (m_ q) norms) as [npq'| | |]; try reflexivity. cbn [bind].
  destruct (pq_compute_codes npq' norms (m_ q)) as [w| | |]; try reflexivity. cbn [bind].
  destruct (write_through (norm_codes_ q) w) as [nc| | |]; reflexivity.
Qed.

(** C4. For every constructed instance [x] whose quantizers' own
    serialization restores them, loading the bytes [save] wrote yields an
    instance with the same rowCount, colCount, codeBufferSize, flag, codes
    and normCodes, and whose dot products and accumulations are equal to
    those of [x]. *)
Theorem save_load_round_trip mat dsub qnorm x :
  DenseMatrix_ok mat ->
  QuantMatrix_new mat dsub qnorm = Returns x ->
  (forall pq, pq_ x = Some pq -> pq_round_trip pq (norm_block x)) ->
  (forall npq, npq_ x = Some npq -> pq_round_trip npq []) ->
  exists bytes x',
    save x [] = Returns bytes /\
    load QuantMatrix_default (istream_of bytes) = Returns (x', istream_of []) /\
    m_ x' = m_ x /\ n_ x' = n_ x /\ codesize_ x' = codesize_ x /\
    qnorm_ x' = qnorm_ x /\
    codes_ x' = codes_ x /\ norm_codes_ x' = norm_codes_ x /\
    (forall vec i, dotRow x' vec i = dotRow x vec i) /\
    (forall acc i a,
        addRowToVector_scaled x' acc i a = addRowToVector_scaled x acc i a) /\
    (forall acc i, addRowToVector x' acc i = addRowToVector x acc i).
Proof.
  intros (Hrows & Hcols & _) Hnew Hmain Hnorm.
  pose proof (created_well_formed x (created_by_quantizing _ _ _ _ Hnew)) as Hwf.
  assert (Hrange : header_in_range x).
  { apply QuantMatrix_new_Returns in Hnew.
    destruct Hnew as (Em & En & _ & _ & _ & Hcs & _).
    unfold header_in_range. rewrite Em, En.
    unfold in_int64, int64_min, int64_max in *. repeat split; trivial; lia. }
  destruct (load_save x Hwf Hrange Hmain Hnorm)
    as (bytes & x' & Hsave & Hload & Em & En & Ecs & Eq & Ec & Enc & Hpq & Hnpq).
  exists bytes, x'. repeat split; trivial;
    apply (queries_agree x x'); trivial;
    destruct (qnorm_ x); trivial.
Qed.

(** C5. For every created instance, [save] appends to the stream exactly:
    the flag byte, rowCount, colCount and codeBufferSize (eight bytes
    each), the codes (codeBufferSize bytes), the main quantizer's blob, and,
    only when the flag is set, the normCodes (rowCount bytes) followed by
    the norm quantizer's blob. *)
Theorem save_layout q out :
  created q ->
  exists pq, pq_ q = Some pq /\
    save q out =
    Returns (out ++ bytes_of_bool (qnorm_ q)
             ++ bytes_of_int64 (m_ q) ++ bytes_of_int64 (n_ q)
             ++ bytes_of_int64 (codesize_ q)
             ++ codes_ q ++ pq_save pq
             ++ (if qnorm_ q
                 then norm_codes_ q
                      ++ match npq_ q with Some npq => pq_save npq | None => [] end
                 else [])) /\
    length (bytes_of_bool (qnorm_ q)) = 1%nat /\
    length (bytes_of_int64 (m_ q)) = 8%nat /\
    length (bytes_of_int64 (n_ q)) = 8%nat /\
    length (bytes_of_int64 (codesize_ q)) = 8%nat /\
    size (codes_ q) = codesize_ q /\
    (qnorm_ q = true -> size (norm_codes_ q) = m_ q /\ npq_ q <> None).
Proof.
  intros Hq. apply created_well_formed in Hq.
  destruct (save_bytes q out Hq) as (pq & Hpq & Hsave).
  exists pq. split; [exact Hpq|]. split; [exact Hsave|].
  rewrite !length_bytes_of_int64.
  destruct Hq as (Hc & _ & Hn). unfold norm_flag_consistent in Hn.
  do 5 (split; [trivial|]).
  intros E. rewrite E in Hn. destruct Hn as [[npq ->] Hsz].
  split; [exact Hsz | discriminate].
Qed.

(** C6. For every constructed or loaded instance, normCodes (of length
    rowCount) and the norm quantizer are present when the flag is set, and
    both are absent when it is not. *)
Theorem norm_flag_consistency q :
  created q ->
  (qnorm_ q = true ->
   (exists npq, npq_ q = Some npq) /\ size (norm_codes_ q) = m_ q) /\
  (qnorm_ q = false -> npq_ q = None /\ norm_codes_ q = []).
Proof.
  intros Hq. apply created_well_formed in Hq.
  destruct Hq as (_ & _ & Hn). unfold norm_flag_consistent in Hn.
  split; intros E; rewrite E in Hn; exact Hn.
Qed.

(** C7 (amended). [dotRow] refuses a row index outside [0, rowCount) and a
    query whose length is not colCount through its assertions: the call
    aborts on the failed assertion and throws no exception. *)
Theorem dotRow_out_of_range q vec i :
  i < 0 \/ m_ q <= i \/ size vec <> n_ q ->
  dotRow q vec i = AssertionFailed.
Proof.
  intros H. unfold dotRow.
  destruct (Z.leb_spec 0 i); [|reflexivity].
  destruct (Z.ltb_spec i (m_ q)); [|reflexivity].
  destruct (Z.eqb_spec (size vec) (n_ q)); [lia|reflexivity].
Qed.

(** C8. On every instance and for every argument, [addVectorToRow] and
    [dump] throw the "Operation not permitted" runtime error, and the
    instance (and the stream handed to [dump]) is as before the call. *)
Theorem disallowed_operations q vec i a out :
  addVectorToRow q vec i a
  = (Throws (runtime_error "Operation not permitted on quantized matrices."), q)
  /\ dump q out
  = (Throws (runtime_error "Operation not permitted on quantized matrices."), q, out).
Proof. split; reflexivity. Qed.

(** C9 (amended). For every created instance, accumulator and row index
    [i] in [0, rowCount) whose reconstructed norm is a value a [float] can
    hold: [addRowToVector(accumulator, i)] behaves as
    [addRowToVector(accumulator, i, scale)] with [scale] equal to 1, whether
    or not norm quantization is on; and the scaled form hands the
    accumulator to the main quantizer's accumulate [addcode] with the factor
    [scale * norm], where [norm] is the row's reconstructed norm when norm
    quantization is on and 1 otherwise.  The outcome is the accumulator; the
    instance is not touched. *)
Theorem addRowToVector_forms q acc i scale :
  created q -> 0 <= i < m_ q ->
  (forall norm, reconstructed_norm q i = Returns norm -> real_valid norm = true) ->
  addRowToVector q acc i = addRowToVector_scaled q acc i rone /\
  exists pq, pq_ q = Some pq /\
    if qnorm_ q then
      exists npq c, npq_ q = Some npq /\
        nth_error (norm_codes_ q) (Z.to_nat i) = Some c /\
        addRowToVector_scaled q acc i scale =
        (norm <- at_index (pq_get_centroids npq 0 c) 0 ;;
         pq_addcode pq acc (codes_ q) i (rmul scale norm))
    else
      addRowToVector_scaled q acc i scale
      = pq_addcode pq acc (codes_ q) i (rmul scale rone).
Proof.
  intros Hq Hi Hvalid. apply created_well_formed in Hq.
  pose proof (reconstructed_norm_well_formed q i Hq Hi) as Hn.
  destruct Hq as (_ & [pq Hpq] & _).
  rewrite !addRowToVector_scaled_unfold, addRowToVector_unfold.
  split.
  - destruct (reconstructed_norm q i) as [norm| | |]; try reflexivity.
    cbn [bind]. now rewrite rmul_1_l by auto.
  - exists pq. split; [exact Hpq|]. rewrite Hpq.
    destruct (qnorm_ q).
    + destruct Hn as (npq & c & Hnpq & Hc & ->). exists npq, c.
      repeat split; auto.
    + now rewrite Hn.
Qed.

(** C10. For every instance, accumulator [x] and row index [i] whose
    reconstructed norm is a value a [float] can hold, [addRowToVector(x, i)]
    leaves the accumulator exactly as [addRowToVector(x, i, 1)] does: both
    apply the norm once. *)
Theorem addRowToVector_scale_one q acc i :
  (forall norm, reconstructed_norm q i = Returns norm -> real_valid norm = true) ->
  addRowToVector q acc i = addRowToVector_scaled q acc i rone.
Proof.
  intros Hvalid. rewrite addRowToVector_scaled_unfold, addRowToVector_unfold.
  destruct (reconstructed_norm q i) as [norm| | |]; try reflexivity.
  cbn [bind]. now rewrite rmul_1_l by auto.
Qed.

End Specification.

(* ================================================================== *)
(** * The properties on the reference instances *)

Import Sample.

Lemma mat22_ok : DenseMatrix_ok Sample.mat22.
Proof. unfold DenseMatrix_ok. repeat split; vm_compute; congruence. Qed.

Lemma mat48_ok : DenseMatrix_ok Sample.mat48.
Proof. unfold DenseMatrix_ok. repeat split; vm_compute; congruence. Qed.

Lemma q22_constructed :
  QuantMatrix_new Sample.mat22 2 true = Returns Sample.q22.
Proof. vm_compute. reflexivity. Qed.

Lemma q48_constructed :
  QuantMatrix_new Sample.mat48 2 false = Returns Sample.q48.
Proof. vm_compute. reflexivity. Qed.

Lemma q22_created : created Sample.q22.
Proof. exact (created_by_quantizing _ _ _ _ q22_constructed). Qed.

Lemma q48_created : created Sample.q48.
Proof. exact (created_by_quantizing _ _ _ _ q48_constructed). Qed.

Lemma q22_shape :
  m_ Sample.q22 = 2 /\ n_ Sample.q22 = 2 /\ codesize_ Sample.q22 = 2 /\
  qnorm_ Sample.q22 = true /\
  codes_ Sample.q22 = [x00; x01] /\ norm_codes_ Sample.q22 = [x00; x01].
Proof. vm_compute. repeat split; reflexivity. Qed.

Lemma q48_shape :
  m_ Sample.q48 = 4 /\ n_ Sample.q48 = 8 /\ codesize_ Sample.q48 = 16 /\
  qnorm_ Sample.q48 = false /\ norm_codes_ Sample.q48 = [] /\
  npq_ Sample.q48 = None.
Proof. vm_compute. repeat split; reflexivity. Qed.

Lemma q22_quantizers :
  pq_ Sample.q22 = Some Sample.q22_main /\ npq_ Sample.q22 = Some Sample.q22_norm.
Proof. vm_compute. split; reflexivity. Qed.

(** [1.0f] and the integer 1 are the same [float]. *)
Example rone_is_one : rone = SFone prec32 emax32 /\ rone = real_of_Z 1.
Proof. vm_compute. split; reflexivity. Qed.

(** The dot product of (1, 1) with row 0 = (3, 4), from the codes: 7 up to
    rounding (14680065 / 2^21). *)
Example q22_dotRow_0 :
  dotRow q22 ones 0 = Returns (S754_finite false 14680065 (-21)).
Proof. vm_compute. reflexivity. Qed.

(** Rows 0 and 1 of [mat22] have norms 5 and 2. *)
Lemma q22_norms :
  reconstructed_norm Sample.q22 0 = Returns (real_of_Z 5) /\
  reconstructed_norm Sample.q22 1 = Returns (real_of_Z 2).
Proof. vm_compute. split; reflexivity. Qed.

Lemma mat22_norms norms :
  l2NormRow Sample.mat22 (repeat rzero (Z.to_nat (dm_rows Sample.mat22))) = Returns norms ->
  size norms = dm_rows Sample.mat22.
Proof. vm_compute. intros [= <-]. reflexivity. Qed.

Lemma q22_initial_quantized :
  quantize Sample.q22_initial Sample.mat22 = Returns Sample.q22.
Proof. vm_compute. reflexivity. Qed.

Lemma same_quantizer_refl {PQ : Type} {PQops : ProductQuantizer PQ} (p : PQ) :
  same_quantizer p p.
Proof. repeat split. Qed.

Lemma Some_eq {A : Type} (a b : A) : Some a = Some b -> a = b.
Proof. now intros [= ->]. Qed.

Lemma q22_main_round_trip pq :
  pq_ Sample.q22 = Some pq -> pq_round_trip pq (norm_block Sample.q22).
Proof.
  destruct q22_quantizers as [E _]. rewrite E. intros H.
  apply Some_eq in H. subst pq.
  exists Sample.q22_main. split; [|apply same_quantizer_refl].
  vm_compute. reflexivity.
Qed.

Lemma q22_norm_round_trip npq :
  npq_ Sample.q22 = Some npq -> pq_round_trip npq [].
Proof.
  destruct q22_quantizers as [_ E]. rewrite E. intros H.
  apply Some_eq in H. subst npq.
  exists Sample.q22_norm. split; [|apply same_quantizer_refl].
  vm_compute. reflexivity.
Qed.

(** C1 on [q22]: row 0, query (1, 1). *)
Lemma dotRow_spec_witness :
  (created q22 /\ 0 <= 0 < m_ q22 /\ size ones = n_ q22) /\
  exists pq, pq_ q22 = Some pq /\
    if qnorm_ q22 then
      exists npq c, npq_ q22 = Some npq /\
        nth_error (norm_codes_ q22) (Z.to_nat 0) = Some c /\
        dotRow q22 ones 0 =
        (norm <- at_index (pq_get_centroids npq 0 c) 0 ;;
         pq_mulcode pq ones (codes_ q22) 0 norm)
    else dotRow q22 ones 0 = pq_mulcode pq ones (codes_ q22) 0 rone.
Proof.
  assert (H : created q22 /\ 0 <= 0 < m_ q22 /\ size ones = n_ q22).
  { destruct q22_shape as (Em & En & _). rewrite Em, En.
    split; [exact q22_created|]. split; [lia | reflexivity]. }
  split; [exact H|]. destruct H as (H1 & H2 & H3).
  exact (dotRow_spec q22 ones 0 H1 H2 H3).
Defined.

(** C2 on the 4 x 8 matrix with sub-vector size 2: sixteen codes. *)
Lemma codesize_equation_witness :
  (DenseMatrix_ok mat48 /\ 0 < 2 /\ QuantMatrix_new mat48 2 false = Returns q48) /\
  (m_ q48 = dm_rows mat48 /\ n_ q48 = dm_cols mat48 /\
   codesize_ q48 = dm_rows mat48 * ceil_div (dm_cols mat48) 2 /\
   forall bytes q' s',
     save q48 [] = Returns bytes ->
     load QuantMatrix_default (istream_of bytes) = Returns (q', s') ->
     codesize_ q' = m_ q' * ceil_div (n_ q') 2).
Proof.
  assert (Hd : 0 < 2) by lia.
  split; [exact (conj mat48_ok (conj Hd q48_constructed))|].
  exact (codesize_equation mat48 2 false q48 mat48_ok Hd q48_constructed).
Defined.

(** A stream can announce a code buffer its dimensions do not account for:
    the loaded instance has 0 rows and a code buffer of one byte. *)
Lemma loaded_codesize_counterexample :
  exists q,
    load QuantMatrix_default (istream_of header_0_0_1) = Returns (q, istream_of []) /\
    m_ q = 0 /\ n_ q = 0 /\ codesize_ q = 1 /\
    forall d, codesize_ q <> m_ q * ceil_div (n_ q) d.
Proof.
  exists {| m_ := 0; n_ := 0; pq_ := Some sample_default; npq_ := None;
            codes_ := [x2a]; norm_codes_ := []; qnorm_ := false; codesize_ := 1 |}.
  split; [vm_compute; reflexivity|]. simpl. repeat split. intros d. lia.
Qed.

(** C3 on [mat22]. *)
Lemma quantize_follows_steps_witness :
  (m_ q22_initial = dm_rows mat22 /\
   (forall norms,
       l2NormRow mat22 (repeat rzero (Z.to_nat (dm_rows mat22))) = Returns norms ->
       size norms = dm_rows mat22)) /\
  quantize q22_initial mat22 = quantize_steps q22_initial mat22.
Proof.
  split; [split; [reflexivity | exact mat22_norms]|].
  exact (quantize_follows_steps q22_initial mat22 eq_refl mat22_norms).
Defined.

(** C4 on [q22]. *)
Lemma save_load_round_trip_witness :
  (DenseMatrix_ok mat22 /\ QuantMatrix_new mat22 2 true = Returns q22 /\
   (forall pq, pq_ q22 = Some pq -> pq_round_trip pq (norm_block q22)) /\
   (forall npq, npq_ q22 = Some npq -> pq_round_trip npq [])) /\
  exists bytes x',
    save q22 [] = Returns bytes /\
    load QuantMatrix_default (istream_of bytes) = Returns (x', istream_of []) /\
    m_ x' = m_ q22 /\ n_ x' = n_ q22 /\ codesize_ x' = codesize_ q22 /\
    qnorm_ x' = qnorm_ q22 /\
    codes_ x' = codes_ q22 /\ norm_codes_ x' = norm_codes_ q22 /\
    (forall vec i, dotRow x' vec i = dotRow q22 vec i) /\
    (forall acc i a,
        addRowToVector_scaled x' acc i a = addRowToVector_scaled q22 acc i a) /\
    (forall acc i, addRowToVector x' acc i = addRowToVector q22 acc i).
Proof.
  split.
  - exact (conj mat22_ok (conj q22_constructed
             (conj q22_main_round_trip q22_norm_round_trip))).
  - exact (save_load_round_trip mat22 2 true q22 mat22_ok q22_constructed
             q22_main_round_trip q22_norm_round_trip).
Defined.

(** C5 on [q48], writing to an empty stream. *)
Lemma save_layout_witness :
  created q48 /\
  exists pq, pq_ q48 = Some pq /\
    save q48 [] =
    Returns ([] ++ bytes_of_bool (qnorm_ q48)
             ++ bytes_of_int64 (m_ q48) ++ bytes_of_int64 (n_ q48)
             ++ bytes_of_int64 (codesize_ q48)
             ++ codes_ q48 ++ pq_save pq
             ++ (if qnorm_ q48
                 then norm_codes_ q48
                      ++ match npq_ q48 with Some npq => pq_save npq | None => [] end
                 else [])) /\
    length (bytes_of_bool (qnorm_ q48)) = 1%nat /\
    length (bytes_of_int64 (m_ q48)) = 8%nat /\
    length (bytes_of_int64 (n_ q48)) = 8%nat /\
    length (bytes_of_int64 (codesize_ q48)) = 8%nat /\
    size (codes_ q48) = codesize_ q48 /\
    (qnorm_ q48 = true -> size (norm_codes_ q48) = m_ q48 /\ npq_ q48 <> None).
Proof.
  split; [exact q48_created|].
  exact (save_layout q48 [] q48_created).
Defined.

(** C6 on [q22]. *)
Lemma norm_flag_consistency_witness :
  created q22 /\
  (qnorm_ q22 = true ->
   (exists npq, npq_ q22 = Some npq) /\ size (norm_codes_ q22) = m_ q22) /\
  (qnorm_ q22 = false -> npq_ q22 = None /\ norm_codes_ q22 = []).
Proof.
  split; [exact q22_created|].
  exact (norm_flag_consistency q22 q22_created).
Defined.

(** C7 on [q22]: the row index equal to rowCount. *)
Lemma dotRow_out_of_range_witness :
  (2 < 0 \/ m_ q22 <= 2 \/ size ones <> n_ q22) /\
  dotRow q22 ones 2 = AssertionFailed.
Proof.
  assert (H : 2 < 0 \/ m_ q22 <= 2 \/ size ones <> n_ q22).
  { right. left. destruct q22_shape as (Em & _). rewrite Em. lia. }
  split; [exact H|].
  exact (dotRow_out_of_range q22 ones 2 H).
Defined.

(** Out of range, [dotRow] aborts on its assertion and throws nothing, and
    [addRowToVector] checks nothing before it indexes normCodes. *)
Lemma no_InvalidArgument_counterexample :
  dotRow q22 ones (m_ q22) = AssertionFailed /\
  dotRow q22 ones (-1) = AssertionFailed /\
  dotRow q22 (rone :: ones) 0 = AssertionFailed /\
  (forall e, dotRow q22 ones (m_ q22) <> Throws e) /\
  addRowToVector q22 zeros (m_ q22) = Undefined /\
  addRowToVector q22 zeros (-1) = Undefined.
Proof.
  vm_compute. repeat split; try reflexivity. intros e H. discriminate H.
Qed.

(** C9 on [q22], row 1, scale 2. *)
Lemma addRowToVector_forms_witness :
  (created q22 /\ 0 <= 1 < m_ q22 /\
   (forall norm, reconstructed_norm q22 1 = Returns norm -> real_valid norm = true)) /\
  addRowToVector q22 zeros 1 = addRowToVector_scaled q22 zeros 1 rone /\
  exists pq, pq_ q22 = Some pq /\
    if qnorm_ q22 then
      exists npq c, npq_ q22 = Some npq /\
        nth_error (norm_codes_ q22) (Z.to_nat 1) = Some c /\
        addRowToVector_scaled q22 zeros 1 (real_of_Z 2) =
        (norm <- at_index (pq_get_centroids npq 0 c) 0 ;;
         pq_addcode pq zeros (codes_ q22) 1 (rmul (real_of_Z 2) norm))
    else
      addRowToVector_scaled q22 zeros 1 (real_of_Z 2)
      = pq_addcode pq zeros (codes_ q22) 1 (rmul (real_of_Z 2) rone).
Proof.
  assert (H : created q22 /\ 0 <= 1 < m_ q22 /\
              (forall norm, reconstructed_norm q22 1 = Returns norm ->
                            real_valid norm = true)).
  { destruct q22_shape as (Em & _). rewrite Em.
    split; [exact q22_created|]. split; [lia|].
    intros norm. destruct q22_norms as [_ E]. rewrite E.
    intros [= <-]. reflexivity. }
  split; [exact H|]. destruct H as (H1 & H2 & H3).
  exact (addRowToVector_forms q22 zeros 1 (real_of_Z 2) H1 H2 H3).
Defined.

(** Row 1 of [q22] has the reconstructed norm 2: the two-argument form adds
    2 times the unit row (0, 1), the three-argument form with scale 2 adds
    4 times it. *)
Lemma default_scale_counterexample :
  created q22 /\
  reconstructed_norm q22 1 = Returns (real_of_Z 2) /\
  addRowToVector q22 zeros 1 = Returns [rzero; real_of_Z 2] /\
  addRowToVector_scaled q22 zeros 1 (real_of_Z 2) = Returns [rzero; real_of_Z 4] /\
  addRowToVector q22 zeros 1 <> addRowToVector_scaled q22 zeros 1 (real_of_Z 2).
Proof.
  split; [exact q22_created|].
  vm_compute. repeat split; try reflexivity. intros H. discriminate H.
Qed.

(** C10 on [q22], row 1. *)
Lemma addRowToVector_scale_one_witness :
  (forall norm, reconstructed_norm q22 1 = Returns norm -> real_valid norm = true) /\
  addRowToVector q22 zeros 1 = addRowToVector_scaled q22 zeros 1 rone.
Proof.
  assert (H : forall norm, reconstructed_norm q22 1 = Returns norm ->
                           real_valid norm = true).
  { intros norm. destruct q22_norms as [_ E]. rewrite E.
    intros [= <-]. reflexivity. }
  split; [exact H|].
  exact (addRowToVector_scale_one q22 zeros 1 H).
Defined.

(* ================================================================== *)
(** * Further properties of the code *)

(** ** Streams that have nothing left *)

Lemma read_object_exhausted (old : list byte) (s : istream) :
  exhausted s ->
  exists s', read_object old s = (old, s') /\ exhausted s'.
Proof.
  intros [Hf | He]; unfold read_object, istream_read.
  - rewrite Hf. exists s. split; [reflexivity | now left].
  - destruct (is_fail s) eqn:Ef.
    + exists s. split; [reflexivity | now left].
    + rewrite He. destruct old as [|b old]; simpl.
      * exists (mk_istream [] false). split; [reflexivity | now right].
      * exists (mk_istream [] true). split; [reflexivity | now left].
Qed.

Lemma skipn_repeat_sub {A : Type} (a : A) (k n : nat) :
  skipn k (repeat a n) = repeat a (n - k).
Proof.
  revert k. induction n as [|n IH]; intros [|k]; simpl; auto.
Qed.

(** Reading an object from a stream that ends inside it. *)
Lemma read_object_short (old bs : list byte) :
  (length bs < length old)%nat ->
  read_object old (istream_of bs)
  = (bs ++ skipn (length bs) old, mk_istream [] true).
Proof.
  intros H. unfold read_object, istream_read, istream_of. simpl.
  destruct (Nat.leb_spec (length old) (length bs)); [lia|]. reflexivity.
Qed.

Section FurtherProperties.

Context {PQ : Type} {PQops : ProductQuantizer PQ} {Dops : DenseOps}.

Implicit Types (q x : QuantMatrix PQ) (mat : DenseMatrix).

(** Loading from a stream that starts with a header and the announced
    number of code bytes: what is left to do after the codes are read. *)
Lemma load_after_codes q0 flag m n cs codes tail :
  in_int64 m = true -> in_int64 n = true -> in_int64 cs = true ->
  size codes = cs ->
  load q0 (istream_of (bytes_of_bool flag ++ bytes_of_int64 m
                       ++ bytes_of_int64 n ++ bytes_of_int64 cs
                       ++ codes ++ tail))
  = ('(pq, s) <- pq_load pq_default (istream_of tail) ;;
     if flag then
       norm_codes <- vector_of_size x00 m ;;
       let '(norm_codes, s) := read_object norm_codes s in
       '(npq, s) <- pq_load pq_default s ;;
       Returns ({| m_ := m; n_ := n; pq_ := Some pq; npq_ := Some npq;
                   codes_ := codes; norm_codes_ := norm_codes;
                   qnorm_ := true; codesize_ := cs |}, s)
     else
       Returns ({| m_ := m; n_ := n; pq_ := Some pq; npq_ := npq_ q0;
                   codes_ := codes; norm_codes_ := norm_codes_ q0;
                   qnorm_ := false; codesize_ := cs |}, s)).
Proof.
  intros Hm Hn Hcs Hc. unfold load.
  rewrite read_object_app by reflexivity.
  rewrite read_object_app by (now rewrite !length_bytes_of_int64).
  rewrite read_object_app by (now rewrite !length_bytes_of_int64).
  rewrite read_object_app by (now rewrite !length_bytes_of_int64).
  rewrite !int64_of_bytes_of_int64 by assumption.
  unfold vector_of_size at 1.
  assert (Hcs0 : 0 <= cs) by (unfold size in Hc; lia).
  destruct (Z.ltb_spec cs 0); [lia|]. cbn [bind].
  rewrite read_object_app
    by (rewrite repeat_length; unfold size in Hc; lia).
  destruct (pq_load pq_default (istream_of tail)) as [[p s]| | |]; try reflexivity.
  cbn [bind]. rewrite bool_of_bytes_of_bool. reflexivity.
Qed.

(** X1. A default-constructed instance can only be loaded into: [dotRow]
    fails its row assertion for every argument, and the accumulations and
    [save] dereference the null main quantizer. *)
Theorem empty_instance_operations (vec acc : Vector) (i : Z) (a : real) (out : ostream) :
  dotRow (PQ := PQ) QuantMatrix_default vec i = AssertionFailed /\
  addRowToVector (PQ := PQ) QuantMatrix_default acc i = Undefined /\
  addRowToVector_scaled (PQ := PQ) QuantMatrix_default acc i a = Undefined /\
  save (PQ := PQ) QuantMatrix_default out = Undefined.
Proof.
  repeat split; try reflexivity.
  unfold dotRow. cbn [m_ QuantMatrix_default].
  destruct (Z.leb_spec 0 i); [|reflexivity].
  destruct (Z.ltb_spec i 0); [lia | reflexivity].
Qed.

(** X2. Quantization fills the buffers and trains the quantizers; it
    changes neither rowCount, colCount, the flag nor codeBufferSize, keeps
    the sizes of the two code buffers, and without norm quantization leaves
    normCodes and the norm quantizer as they were. *)
Theorem quantize_frame q mat q' :
  quantize q mat = Returns q' ->
  m_ q' = m_ q /\ n_ q' = n_ q /\ qnorm_ q' = qnorm_ q /\
  codesize_ q' = codesize_ q /\
  (exists pq, pq_ q' = Some pq) /\
  length (codes_ q') = length (codes_ q) /\
  length (norm_codes_ q') = length (norm_codes_ q) /\
  (if qnorm_ q then exists npq, npq_ q' = Some npq
   else npq_ q' = npq_ q /\ norm_codes_ q' = norm_codes_ q).
Proof. apply quantize_Returns. Qed.

(** X3. [quantizeNorm] aborts on its assertions when norm quantization is
    off or the norm vector does not have rowCount entries. *)
Theorem quantizeNorm_aborts q (norms : Vector) :
  qnorm_ q = false \/ size norms <> m_ q ->
  quantizeNorm q norms = AssertionFailed.
Proof.
  intros H. unfold quantizeNorm.
  destruct (qnorm_ q); [|reflexivity]. cbn [assert bind].
  destruct H as [H|H]; [discriminate|].
  destruct (Z.eqb_spec (size norms) (m_ q)); [contradiction | reflexivity].
Qed.

(** X4. A sub-vector size of 0 is not rejected: the constructor divides by
    it when it computes codeBufferSize, before anything is allocated. *)
Theorem QuantMatrix_new_dsub_zero mat (qnorm : bool) :
  DenseMatrix_ok mat ->
  QuantMatrix_new mat 0 qnorm = Undefined.
Proof.
  intros (_ & [Hlo Hhi] & _). unfold QuantMatrix_new, add64, sub64, checked64.
  assert (H1 : in_int64 (dm_cols mat + 0) = true).
  { unfold in_int64, int64_min, int64_max in *.
    apply andb_true_iff. split; apply Z.leb_le; lia. }
  rewrite H1. cbn [bind].
  assert (H2 : in_int64 (dm_cols mat + 0 - 1) = true).
  { unfold in_int64, int64_min, int64_max in *.
    apply andb_true_iff. split; apply Z.leb_le; lia. }
  rewrite H2. reflexivity.
Qed.

(** X5. Where the parts of a constructed instance come from: the main
    quantizer is [ProductQuantizer(colCount, dsub)] trained on rowCount
    vectors, and the codes are what it encoded, stored over a zeroed buffer
    of codeBufferSize bytes.  With norm quantization the norm quantizer is
    [ProductQuantizer(1, 1)] trained on the rowCount row norms, normCodes is
    what it encoded over a zeroed buffer of rowCount bytes, and the main
    quantizer saw the rows divided by their norms; without it the main
    quantizer saw the matrix as given. *)
Theorem constructor_provenance mat dsub (qnorm : bool) q :
  QuantMatrix_new mat dsub qnorm = Returns q ->
  exists p0 data p written,
    pq_new (dm_cols mat) dsub = Returns p0 /\
    pq_train p0 (dm_rows mat) data = Returns p /\
    pq_compute_codes p data (dm_rows mat) = Returns written /\
    pq_ q = Some p /\
    codes_ q = overwrite (repeat x00 (Z.to_nat (codesize_ q))) written /\
    if qnorm then
      exists n0 norms mat' np nwritten,
        pq_new 1 1 = Returns n0 /\
        l2NormRow mat (repeat rzero (Z.to_nat (dm_rows mat))) = Returns norms /\
        divideRow mat norms = Returns mat' /\
        data = dm_data mat' /\
        pq_train n0 (dm_rows mat) norms = Returns np /\
        pq_compute_codes np norms (dm_rows mat) = Returns nwritten /\
        npq_ q = Some np /\
        norm_codes_ q = overwrite (repeat x00 (Z.to_nat (dm_rows mat))) nwritten
    else data = dm_data mat /\ npq_ q = None /\ norm_codes_ q = [].
Proof.
  unfold QuantMatrix_new. intros H.
  peel H t1 H1. peel H t2 H2. peel H t3 H3. peel H cs H4.
  peel H codes H5. peel H p0 H6. peel H nn H7. destruct nn as [nc npq].
  apply vector_of_size_Returns in H5 as (_ & _ & ->).
  unfold quantize in H. cbn [qnorm_] in H.
  peel H qm H0. destruct qm as [q1 mat1].
  peel H pq H8. peel H p H9. peel H written H10. peel H codes' H11.
  injection H as <-. cbn [pq_ codes_ npq_ norm_codes_ codesize_].
  unfold write_through in H11.
  destruct (length written <=? length (codes_ q1))%nat; [|discriminate].
  injection H11 as <-.
  destruct qnorm.
  - peel H7 nc0 G1. peel H7 n0 G2. injection H7 as <- <-.
    apply vector_of_size_Returns in G1 as (_ & _ & ->).
    peel H0 v0 K0. peel H0 norms K1. peel H0 mat' K2. peel H0 q2 K3.
    injection H0 as <- <-.
    apply vector_of_size_Returns in K0 as (_ & _ & ->).
    unfold quantizeNorm in K3. cbn [qnorm_ m_ npq_ norm_codes_] in K3.
    peel K3 u1 L1. peel K3 u2 L2. peel K3 n1 L3. peel K3 np L4.
    peel K3 nwritten L5. peel K3 nc' L6. injection K3 as <-.
    cbn [pq_ codes_ npq_ norm_codes_ codesize_ m_] in *.
    injection L3 as <-. apply deref_Returns in H8. injection H8 as <-.
    unfold write_through in L6.
    destruct (length nwritten <=? length (repeat x00 (Z.to_nat (dm_rows mat))))%nat;
      [|discriminate].
    injection L6 as <-.
    exists p0, (dm_data mat'), p, written. repeat split; trivial.
    exists n0, norms, mat', np, nwritten. repeat split; trivial.
  - injection H7 as <- <-. injection H0 as <- <-.
    cbn [pq_ codes_ npq_ norm_codes_ codesize_ m_] in *.
    apply deref_Returns in H8. injection H8 as <-.
    exists p0, (dm_data mat), p, written. repeat split; trivial.
Qed.

(** X7. The accumulations do not check the row index.  On a created
    instance and a row index outside [0, rowCount): with norm quantization
    both forms index normCodes past its bounds; without it both forms hand
    the index to the main quantizer as it is. *)
Theorem addRowToVector_out_of_range q (acc : Vector) (i : Z) (a : real) :
  created q -> i < 0 \/ m_ q <= i ->
  if qnorm_ q then
    addRowToVector q acc i = Undefined /\
    addRowToVector_scaled q acc i a = Undefined
  else
    exists pq, pq_ q = Some pq /\
      addRowToVector q acc i = pq_addcode pq acc (codes_ q) i rone /\
      addRowToVector_scaled q acc i a = pq_addcode pq acc (codes_ q) i (rmul a rone).
Proof.
  intros Hq Hi. apply created_well_formed in Hq.
  destruct Hq as (_ & [pq Hpq] & Hn). unfold norm_flag_consistent in Hn.
  unfold addRowToVector, addRowToVector_scaled.
  destruct (qnorm_ q).
  - destruct Hn as [[npq ->] Hsz]. cbn [deref bind].
    unfold at_index at 1 3. rewrite Hsz.
    destruct (Z.leb_spec 0 i); destruct (Z.ltb_spec i (m_ q)); try lia;
      split; reflexivity.
  - exists pq. rewrite Hpq. repeat split.
Qed.

(** X8. A stream whose header announces a negative codeBufferSize makes
    [load] throw the length error of the code buffer's allocation, before
    any quantizer is read. *)
Theorem load_negative_codesize q0 (flag : bool) (m n cs : Z) (rest : list byte) :
  in_int64 m = true -> in_int64 n = true -> in_int64 cs = true -> cs < 0 ->
  exists what,
    load q0 (istream_of (bytes_of_bool flag ++ bytes_of_int64 m
                         ++ bytes_of_int64 n ++ bytes_of_int64 cs ++ rest))
    = Throws (length_error what).
Proof.
  intros Hm Hn Hcs Hneg. unfold load.
  rewrite read_object_app by reflexivity.
  rewrite read_object_app by (now rewrite !length_bytes_of_int64).
  rewrite read_object_app by (now rewrite !length_bytes_of_int64).
  rewrite read_object_app by (now rewrite !length_bytes_of_int64).
  rewrite !int64_of_bytes_of_int64 by assumption.
  unfold vector_of_size. destruct (Z.ltb_spec cs 0); [|lia].
  eexists. reflexivity.
Qed.

(** X9. [load] does not notice a stream that is empty or already failed:
    when the quantizer's own load returns, the instance keeps the
    receiver's flag, rowCount, colCount and codeBufferSize, and its code
    buffer is all zero. *)
Theorem load_exhausted_stream q0 (s s' : istream) q :
  exhausted s -> header_in_range q0 ->
  load q0 s = Returns (q, s') ->
  qnorm_ q = qnorm_ q0 /\ m_ q = m_ q0 /\ n_ q = n_ q0 /\
  codesize_ q = codesize_ q0 /\
  codes_ q = repeat x00 (Z.to_nat (codesize_ q0)).
Proof.
  intros He (Hm & Hn & Hcs). unfold load.
  destruct (read_object_exhausted (bytes_of_bool (qnorm_ q0)) s He) as (s1 & -> & He1).
  destruct (read_object_exhausted (bytes_of_int64 (m_ q0)) s1 He1) as (s2 & -> & He2).
  destruct (read_object_exhausted (bytes_of_int64 (n_ q0)) s2 He2) as (s3 & -> & He3).
  destruct (read_object_exhausted (bytes_of_int64 (codesize_ q0)) s3 He3) as (s4 & -> & He4).
  rewrite !int64_of_bytes_of_int64, bool_of_bytes_of_bool by assumption.
  intros H. peel H codes0 H1.
  apply vector_of_size_Returns in H1 as (_ & _ & ->).
  destruct (read_object_exhausted (repeat x00 (Z.to_nat (codesize_ q0))) s4 He4)
    as (s5 & E5 & He5).
  rewrite E5 in H. peel H ps H2. destruct ps as [pq s6]. cbn [bind] in H.
  destruct (qnorm_ q0).
  - peel H nc0 H4. destruct (read_object nc0 s6) as [nc s7].
    peel H ps' H5. destruct ps' as [npq s8].
    injection H as <- <-. cbn. repeat split.
  - injection H as <- <-. cbn. repeat split.
Qed.

(** X10. [load] does not notice a stream that ends inside the codes: the
    bytes that are there are taken and the rest of the code buffer reads as
    zero. *)
Theorem load_truncated_codes q0 (flag : bool) (m n cs : Z) (part : list byte)
  (s' : istream) q :
  in_int64 m = true -> in_int64 n = true -> in_int64 cs = true ->
  size part < cs ->
  load q0 (istream_of (bytes_of_bool flag ++ bytes_of_int64 m
                       ++ bytes_of_int64 n ++ bytes_of_int64 cs ++ part))
  = Returns (q, s') ->
  codesize_ q = cs /\
  codes_ q = part ++ repeat x00 (Z.to_nat cs - length part).
Proof.
  intros Hm Hn Hcs Hshort. unfold load.
  rewrite read_object_app by reflexivity.
  rewrite read_object_app by (now rewrite !length_bytes_of_int64).
  rewrite read_object_app by (now rewrite !length_bytes_of_int64).
  rewrite read_object_app by (now rewrite !length_bytes_of_int64).
  rewrite !int64_of_bytes_of_int64, bool_of_bytes_of_bool by assumption.
  unfold vector_of_size at 1. unfold size in Hshort.
  destruct (Z.ltb_spec cs 0); [lia|]. cbn [bind].
  rewrite read_object_short by (rewrite repeat_length; lia).
  rewrite skipn_repeat_sub.
  intros L. peel L ps L2. destruct ps as [pq s6]. cbn [bind] in L.
  destruct flag.
  - peel L nc0 L4. destruct (read_object nc0 s6) as [nc s7].
    peel L ps' L5. destruct ps' as [npq s8].
    injection L as <- <-. cbn. split; reflexivity.
  - injection L as <- <-. cbn. split; reflexivity.
Qed.

(** X11. Whatever the stream and the receiving instance, a [load] that
    returns leaves a code buffer of exactly codeBufferSize bytes and a main
    quantizer; with the loaded flag set, normCodes has rowCount bytes and
    the norm quantizer is there; with the flag clear, normCodes and the norm
    quantizer are those the receiving instance already had. *)
Theorem load_postcondition q0 (s s' : istream) q :
  load q0 s = Returns (q, s') ->
  size (codes_ q) = codesize_ q /\
  (exists pq, pq_ q = Some pq) /\
  (if qnorm_ q
   then (exists npq, npq_ q = Some npq) /\ size (norm_codes_ q) = m_ q
   else npq_ q = npq_ q0 /\ norm_codes_ q = norm_codes_ q0).
Proof. apply load_Returns. Qed.

(** X12. [load] takes the flag, rowCount, colCount and codeBufferSize from
    the first 25 bytes of the stream as they are, and the next
    codeBufferSize bytes as the codes, whatever the receiving instance
    held. *)
Theorem load_header_and_codes q0 (flag : bool) (m n cs : Z) (codes tail : list byte)
  (s' : istream) q :
  in_int64 m = true -> in_int64 n = true -> in_int64 cs = true ->
  size codes = cs ->
  load q0 (istream_of (bytes_of_bool flag ++ bytes_of_int64 m
                       ++ bytes_of_int64 n ++ bytes_of_int64 cs
                       ++ codes ++ tail))
  = Returns (q, s') ->
  qnorm_ q = flag /\ m_ q = m /\ n_ q = n /\ codesize_ q = cs /\ codes_ q = codes.
Proof.
  intros Hm Hn Hcs Hc. rewrite load_after_codes by assumption.
  intros H. peel H ps H2. destruct ps as [pq s6].
  destruct flag.
  - peel H nc0 H4. destruct (read_object nc0 s6) as [nc s7].
    peel H ps' H5. destruct ps' as [npq s8].
    injection H as <- <-. cbn. repeat split.
  - injection H as <- <-. cbn. repeat split.
Qed.

(** X13. When the quantizers' own load gives back the quantizers that were
    saved, [load] gives back the saved instance itself, field by field, and
    consumes exactly the bytes [save] wrote: what follows them in the
    stream is left for the next reader. *)
Theorem load_save_exact x (rest : list byte) :
  well_formed x -> header_in_range x ->
  (forall pq, pq_ x = Some pq ->
     pq_load pq_default (istream_of (pq_save pq ++ norm_block x ++ rest))
     = Returns (pq, istream_of (norm_block x ++ rest))) ->
  (forall npq, npq_ x = Some npq ->
     pq_load pq_default (istream_of (pq_save npq ++ rest))
     = Returns (npq, istream_of rest)) ->
  exists bytes,
    save x [] = Returns bytes /\
    load QuantMatrix_default (istream_of (bytes ++ rest))
    = Returns (x, istream_of rest).
Proof.
  intros Hwf (Hm & Hn & Hcs) Hmain Hnorm.
  destruct (save_bytes x [] Hwf) as (pq & Hpq & Hsave).
  destruct Hwf as (Hc & _ & Hflag).
  eexists. split; [exact Hsave|].
  cbn [app]. rewrite <- !app_assoc.
  rewrite load_after_codes, (Hmain pq Hpq) by assumption. cbn [bind].
  unfold norm_flag_consistent, norm_block in *.
  destruct x as [m n pq0 npq0 codes ncodes flag cs]. cbn in *. subst pq0.
  destruct flag.
  - destruct Hflag as [[npq ->] Hsz].
    unfold vector_of_size. unfold size in Hsz.
    destruct (Z.ltb_spec m 0); [lia|]. cbn [bind].
    rewrite <- app_assoc.
    rewrite read_object_app by (rewrite repeat_length; lia).
    rewrite (Hnorm npq eq_refl). reflexivity.
  - destruct Hflag as [-> ->]. reflexivity.
Qed.

End FurtherProperties.

(** X6. Without norm quantization the matrix is quantized as it is given:
    the constructor never calls the row-norm or the row-division routine,
    so its outcome does not depend on them. *)
Theorem constructor_without_norms_skips_row_ops
  {PQ : Type} {PQops : ProductQuantizer PQ} (D1 D2 : DenseOps)
  (mat : DenseMatrix) (dsub : Z) :
  QuantMatrix_new (Dops := D1) mat dsub false
  = QuantMatrix_new (Dops := D2) mat dsub false.
Proof.
  unfold QuantMatrix_new.
  repeat match goal with
         | |- bind ?c _ = bind ?c _ =>
             destruct c; cbn [bind]; try reflexivity
         end.
Qed.

(** ** The further properties on the reference instances *)

Lemma q22_well_formed : well_formed q22.
Proof. exact (created_well_formed q22 q22_created). Qed.

Lemma q22_header_in_range : header_in_range q22.
Proof. vm_compute. repeat split; reflexivity. Qed.

Lemma default_header_in_range : header_in_range (PQ := SPQ) QuantMatrix_default.
Proof. vm_compute. repeat split; reflexivity. Qed.

Lemma q22_main_exact pq :
  pq_ q22 = Some pq ->
  pq_load pq_default (istream_of (pq_save pq ++ norm_block q22 ++ [x07]))
  = Returns (pq, istream_of (norm_block q22 ++ [x07])).
Proof.
  destruct q22_quantizers as [E _]. rewrite E. intros H.
  apply Some_eq in H. subst pq. vm_compute. reflexivity.
Qed.

Lemma q22_norm_exact npq :
  npq_ q22 = Some npq ->
  pq_load pq_default (istream_of (pq_save npq ++ [x07]))
  = Returns (npq, istream_of [x07]).
Proof.
  destruct q22_quantizers as [_ E]. rewrite E. intros H.
  apply Some_eq in H. subst npq. vm_compute. reflexivity.
Qed.

(** Loading the bytes of [q48] into [q22]. *)
Lemma q22_reloaded_from_q48 :
  load q22 (istream_of (from_result [] (save q48 [])))
  = Returns ({| m_ := 4; n_ := 8; pq_ := pq_ q48; npq_ := npq_ q22;
                codes_ := codes_ q48; norm_codes_ := norm_codes_ q22;
                qnorm_ := false; codesize_ := 16 |}, istream_of []).
Proof. vm_compute. reflexivity. Qed.

Lemma empty_stream_loaded :
  load QuantMatrix_default (istream_of [])
  = Returns ({| m_ := 0; n_ := 0; pq_ := Some sample_default; npq_ := None;
                codes_ := []; norm_codes_ := []; qnorm_ := false;
                codesize_ := 0 |}, mk_istream [] true).
Proof. vm_compute. reflexivity. Qed.

Lemma truncated_stream_loaded :
  load QuantMatrix_default
    (istream_of (bytes_of_bool false ++ bytes_of_int64 0 ++ bytes_of_int64 0
                 ++ bytes_of_int64 3 ++ [x2a]))
  = Returns ({| m_ := 0; n_ := 0; pq_ := Some sample_default; npq_ := None;
                codes_ := [x2a; x00; x00]; norm_codes_ := []; qnorm_ := false;
                codesize_ := 3 |}, mk_istream [] true).
Proof. vm_compute. reflexivity. Qed.

Lemma header_0_0_1_loaded :
  load QuantMatrix_default
    (istream_of (bytes_of_bool false ++ bytes_of_int64 0 ++ bytes_of_int64 0
                 ++ bytes_of_int64 1 ++ [x2a] ++ sample_save sample_default))
  = Returns ({| m_ := 0; n_ := 0; pq_ := Some sample_default; npq_ := None;
                codes_ := [x2a]; norm_codes_ := []; qnorm_ := false;
                codesize_ := 1 |}, istream_of []).
Proof. vm_compute. reflexivity. Qed.

(** X2 on the instance the constructor prepares for [mat22]. *)
Lemma quantize_frame_witness :
  quantize q22_initial mat22 = Returns q22 /\
  (m_ q22 = m_ q22_initial /\ n_ q22 = n_ q22_initial /\
   qnorm_ q22 = qnorm_ q22_initial /\
   codesize_ q22 = codesize_ q22_initial /\
   (exists pq, pq_ q22 = Some pq) /\
   length (codes_ q22) = length (codes_ q22_initial) /\
   length (norm_codes_ q22) = length (norm_codes_ q22_initial) /\
   (if qnorm_ q22_initial then exists npq, npq_ q22 = Some npq
    else npq_ q22 = npq_ q22_initial /\ norm_codes_ q22 = norm_codes_ q22_initial)).
Proof.
  split; [exact q22_initial_quantized|].
  exact (quantize_frame q22_initial mat22 q22 q22_initial_quantized).
Defined.

(** X3 on [q48], which has no norm quantization. *)
Lemma quantizeNorm_aborts_witness :
  (qnorm_ q48 = false \/ size (@nil real) <> m_ q48) /\
  quantizeNorm q48 [] = AssertionFailed.
Proof.
  assert (H : qnorm_ q48 = false \/ size (@nil real) <> m_ q48).
  { left. destruct q48_shape as (_ & _ & _ & E & _). exact E. }
  split; [exact H|].
  exact (quantizeNorm_aborts q48 [] H).
Defined.

(** X4 on [mat22]. *)
Lemma QuantMatrix_new_dsub_zero_witness :
  DenseMatrix_ok mat22 /\ QuantMatrix_new mat22 0 true = Undefined.
Proof.
  split; [exact mat22_ok|].
  exact (QuantMatrix_new_dsub_zero mat22 true mat22_ok).
Defined.

(** X5 on [q22]. *)
Lemma constructor_provenance_witness :
  QuantMatrix_new mat22 2 true = Returns q22 /\
  exists p0 data p written,
    pq_new (dm_cols mat22) 2 = Returns p0 /\
    pq_train p0 (dm_rows mat22) data = Returns p /\
    pq_compute_codes p data (dm_rows mat22) = Returns written /\
    pq_ q22 = Some p /\
    codes_ q22 = overwrite (repeat x00 (Z.to_nat (codesize_ q22))) written /\
    exists n0 norms mat' np nwritten,
      pq_new 1 1 = Returns n0 /\
      l2NormRow mat22 (repeat rzero (Z.to_nat (dm_rows mat22))) = Returns norms /\
      divideRow mat22 norms = Returns mat' /\
      data = dm_data mat' /\
      pq_train n0 (dm_rows mat22) norms = Returns np /\
      pq_compute_codes np norms (dm_rows mat22) = Returns nwritten /\
      npq_ q22 = Some np /\
      norm_codes_ q22 = overwrite (repeat x00 (Z.to_nat (dm_rows mat22))) nwritten.
Proof.
  split; [exact q22_constructed|].
  exact (constructor_provenance mat22 2 true q22 q22_constructed).
Defined.

(** X7 on [q22], at the row index equal to rowCount. *)
Lemma addRowToVector_out_of_range_witness :
  (created q22 /\ (2 < 0 \/ m_ q22 <= 2)) /\
  if qnorm_ q22 then
    addRowToVector q22 zeros 2 = Undefined /\
    addRowToVector_scaled q22 zeros 2 rone = Undefined
  else
    exists pq, pq_ q22 = Some pq /\
      addRowToVector q22 zeros 2 = pq_addcode pq zeros (codes_ q22) 2 rone /\
      addRowToVector_scaled q22 zeros 2 rone
      = pq_addcode pq zeros (codes_ q22) 2 (rmul rone rone).
Proof.
  assert (H : 2 < 0 \/ m_ q22 <= 2).
  { right. destruct q22_shape as (Em & _). rewrite Em. lia. }
  split; [exact (conj q22_created H)|].
  exact (addRowToVector_out_of_range q22 zeros 2 rone q22_created H).
Defined.

(** X8 on a header that announces a code buffer of -1 bytes. *)
Lemma load_negative_codesize_witness :
  (in_int64 4 = true /\ in_int64 8 = true /\ in_int64 (-1) = true /\ -1 < 0) /\
  exists what,
    load (PQ := SPQ) QuantMatrix_default
      (istream_of (bytes_of_bool false ++ bytes_of_int64 4
                   ++ bytes_of_int64 8 ++ bytes_of_int64 (-1) ++ []))
    = Throws (length_error what).
Proof.
  assert (H : -1 < 0) by lia.
  split; [exact (conj eq_refl (conj eq_refl (conj eq_refl H)))|].
  exact (load_negative_codesize QuantMatrix_default false 4 8 (-1) []
           eq_refl eq_refl eq_refl H).
Defined.

(** X9 on the empty stream. *)
Lemma load_exhausted_stream_witness :
  (exhausted (istream_of []) /\
   header_in_range (PQ := SPQ) QuantMatrix_default /\
   load QuantMatrix_default (istream_of [])
   = Returns ({| m_ := 0; n_ := 0; pq_ := Some sample_default; npq_ := None;
                 codes_ := []; norm_codes_ := []; qnorm_ := false;
                 codesize_ := 0 |}, mk_istream [] true)) /\
  (false = false /\ 0 = 0 /\ 0 = 0 /\ 0 = 0 /\ @nil byte = repeat x00 (Z.to_nat 0)).
Proof.
  assert (He : exhausted (istream_of [])) by (right; reflexivity).
  split; [exact (conj He (conj default_header_in_range empty_stream_loaded))|].
  exact (load_exhausted_stream QuantMatrix_default (istream_of []) _ _
           He default_header_in_range empty_stream_loaded).
Defined.

(** X10 on a stream that announces three code bytes and holds one. *)
Lemma load_truncated_codes_witness :
  (in_int64 0 = true /\ size [x2a] < 3 /\
   load QuantMatrix_default
     (istream_of (bytes_of_bool false ++ bytes_of_int64 0 ++ bytes_of_int64 0
                  ++ bytes_of_int64 3 ++ [x2a]))
   = Returns ({| m_ := 0; n_ := 0; pq_ := Some sample_default; npq_ := None;
                 codes_ := [x2a; x00; x00]; norm_codes_ := []; qnorm_ := false;
                 codesize_ := 3 |}, mk_istream [] true)) /\
  (3 = 3 /\ [x2a; x00; x00] = [x2a] ++ repeat x00 (Z.to_nat 3 - length [x2a])).
Proof.
  assert (Hs : size [x2a] < 3) by (unfold size; simpl; lia).
  split; [exact (conj eq_refl (conj Hs truncated_stream_loaded))|].
  exact (load_truncated_codes QuantMatrix_default false 0 0 3 [x2a] _ _
           eq_refl eq_refl eq_refl Hs truncated_stream_loaded).
Defined.

(** X11 on [q22] reloaded from the bytes of [q48]: the flag is clear
    afterwards and the norm block of [q22] is still there. *)
Lemma load_postcondition_witness :
  load q22 (istream_of (from_result [] (save q48 [])))
  = Returns ({| m_ := 4; n_ := 8; pq_ := pq_ q48; npq_ := npq_ q22;
                codes_ := codes_ q48; norm_codes_ := norm_codes_ q22;
                qnorm_ := false; codesize_ := 16 |}, istream_of []) /\
  (size (codes_ q48) = 16 /\
   (exists pq, pq_ q48 = Some pq) /\
   npq_ q22 = npq_ q22 /\ norm_codes_ q22 = norm_codes_ q22).
Proof.
  split; [exact q22_reloaded_from_q48|].
  exact (load_postcondition q22 _ _ _ q22_reloaded_from_q48).
Defined.

(** X12 on the stream [header_0_0_1]. *)
Lemma load_header_and_codes_witness :
  (in_int64 0 = true /\ in_int64 1 = true /\ size [x2a] = 1 /\
   load QuantMatrix_default
     (istream_of (bytes_of_bool false ++ bytes_of_int64 0 ++ bytes_of_int64 0
                  ++ bytes_of_int64 1 ++ [x2a] ++ sample_save sample_default))
   = Returns ({| m_ := 0; n_ := 0; pq_ := Some sample_default; npq_ := None;
                 codes_ := [x2a]; norm_codes_ := []; qnorm_ := false;
                 codesize_ := 1 |}, istream_of [])) /\
  (false = false /\ 0 = 0 /\ 0 = 0 /\ 1 = 1 /\ [x2a] = [x2a]).
Proof.
  split; [exact (conj eq_refl (conj eq_refl (conj eq_refl header_0_0_1_loaded)))|].
  exact (load_header_and_codes QuantMatrix_default false 0 0 1 [x2a]
           (sample_save sample_default) _ _
           eq_refl eq_refl eq_refl eq_refl header_0_0_1_loaded).
Defined.

(** X13 on [q22], with one more byte after its bytes in the stream. *)
Lemma load_save_exact_witness :
  (well_formed q22 /\ header_in_range q22 /\
   (forall pq, pq_ q22 = Some pq ->
      pq_load pq_default (istream_of (pq_save pq ++ norm_block q22 ++ [x07]))
      = Returns (pq, istream_of (norm_block q22 ++ [x07]))) /\
   (forall npq, npq_ q22 = Some npq ->
      pq_load pq_default (istream_of (pq_save npq ++ [x07]))
      = Returns (npq, istream_of [x07]))) /\
  exists bytes,
    save q22 [] = Returns bytes /\
    load QuantMatrix_default (istream_of (bytes ++ [x07]))
    = Returns (q22, istream_of [x07]).
Proof.
  split.
  - exact (conj q22_well_formed (conj q22_header_in_range
             (conj q22_main_exact q22_norm_exact))).
  - exact (load_save_exact q22 [x07] q22_well_formed q22_header_in_range
             q22_main_exact q22_norm_exact).
Defined.
